(** * DistroAV video converter: frame pacing, target resolution, crop

    A shallow embedding of [src/ndi-video-converter.cpp] and of the frame
    callback [ndi_filter_raw_video] of [src/ndi-filter.cpp].

    Machine integers are [Z] with the wrap-around of their C type written
    out; [float] and [double] values are IEEE-754 binary32 / binary64
    values of the standard library's [SpecFloat]; the converter struct is a
    record that every operation takes and returns. *)

From Stdlib Require Import ZArith List Bool Lia Sorted.
From Stdlib Require Import Floats.SpecFloat.
Import ListNotations.
Open Scope Z_scope.

(* ================================================================== *)
(** * Machine integers *)
(* ================================================================== *)

(** Conversions to an unsigned type reduce modulo [2^w]; conversions to a
    signed type and signed overflow (undefined in C++) are modelled as
    two's-complement wrap-around. *)
Module Int.

Definition wrap_u32 (z : Z) : Z := z mod 2 ^ 32.
Definition wrap_u64 (z : Z) : Z := z mod 2 ^ 64.
Definition wrap_i32 (z : Z) : Z := (z + 2 ^ 31) mod 2 ^ 32 - 2 ^ 31.
Definition wrap_i64 (z : Z) : Z := (z + 2 ^ 63) mod 2 ^ 64 - 2 ^ 63.

Definition INT_MAX : Z := 2 ^ 31 - 1.
Definition INT64_MIN : Z := - 2 ^ 63.
Definition INT32_MIN : Z := - 2 ^ 31.

End Int.
Import Int.

(* ================================================================== *)
(** * Floating point: binary32 and binary64 over [SpecFloat] *)
(* ================================================================== *)

Module Fp.

(** Truncation toward zero of a finite value; [None] on NaN and
    infinities. *)
Definition trunc (f : spec_float) : option Z :=
  match f with
  | S754_zero _ => Some 0
  | S754_finite s m e =>
      let a := if 0 <=? e then Zpos m * 2 ^ e else Zpos m / 2 ^ (- e) in
      Some (if s then - a else a)
  | _ => None
  end.

(** A conversion to a 64-bit signed integer.  C++ leaves the result
    undefined when the truncated value does not fit; the model fixes it
    to the value the x86-64 [cvtt] instructions give (the most negative
    integer). *)
Definition to_int64 (f : spec_float) : Z :=
  match trunc f with
  | Some z => if (- 2 ^ 63 <=? z) && (z <? 2 ^ 63) then z else INT64_MIN
  | None => INT64_MIN
  end.

Definition to_int32 (f : spec_float) : Z :=
  match trunc f with
  | Some z => if (- 2 ^ 31 <=? z) && (z <? 2 ^ 31) then z else INT32_MIN
  | None => INT32_MIN
  end.

(** [(uint32_t)f]: converted through the 64-bit instruction, low 32
    bits kept. *)
Definition to_uint32 (f : spec_float) : Z := wrap_u32 (to_int64 f).

Module D.  (* double *)
Definition prec : Z := 53.
Definition emax : Z := 1024.
Definition of_Z (z : Z) : spec_float := binary_normalize prec emax z 0 false.
Definition mul := SFmul prec emax.
Definition div := SFdiv prec emax.
End D.

Module S.  (* float *)
Definition prec : Z := 24.
Definition emax : Z := 128.
Definition of_Z (z : Z) : spec_float := binary_normalize prec emax z 0 false.
Definition mul := SFmul prec emax.
Definition div := SFdiv prec emax.
End S.

End Fp.

(* ================================================================== *)
(** * Data model ([ndi-video-converter.h]) *)
(* ================================================================== *)

Inductive ndi_resolution_mode :=
| NDI_RESOLUTION_AUTO
| NDI_RESOLUTION_720P
| NDI_RESOLUTION_1080P
| NDI_RESOLUTION_1440P
| NDI_RESOLUTION_4K
| NDI_RESOLUTION_CUSTOM.

Inductive ndi_framerate_mode :=
| NDI_FRAMERATE_AUTO
| NDI_FRAMERATE_5
| NDI_FRAMERATE_10
| NDI_FRAMERATE_15
| NDI_FRAMERATE_24
| NDI_FRAMERATE_25
| NDI_FRAMERATE_30
| NDI_FRAMERATE_2997
| NDI_FRAMERATE_50
| NDI_FRAMERATE_60
| NDI_FRAMERATE_5994
| NDI_FRAMERATE_CUSTOM.

Inductive ndi_scale_type :=
| NDI_SCALE_FAST_BILINEAR
| NDI_SCALE_BILINEAR
| NDI_SCALE_BICUBIC.

(** The enumerators number from 0 in declaration order. *)
Definition resolution_mode_value (m : ndi_resolution_mode) : Z :=
  match m with
  | NDI_RESOLUTION_AUTO => 0 | NDI_RESOLUTION_720P => 1
  | NDI_RESOLUTION_1080P => 2 | NDI_RESOLUTION_1440P => 3
  | NDI_RESOLUTION_4K => 4 | NDI_RESOLUTION_CUSTOM => 5
  end.

Definition framerate_mode_value (m : ndi_framerate_mode) : Z :=
  match m with
  | NDI_FRAMERATE_AUTO => 0 | NDI_FRAMERATE_5 => 1 | NDI_FRAMERATE_10 => 2
  | NDI_FRAMERATE_15 => 3 | NDI_FRAMERATE_24 => 4 | NDI_FRAMERATE_25 => 5
  | NDI_FRAMERATE_30 => 6 | NDI_FRAMERATE_2997 => 7 | NDI_FRAMERATE_50 => 8
  | NDI_FRAMERATE_60 => 9 | NDI_FRAMERATE_5994 => 10
  | NDI_FRAMERATE_CUSTOM => 11
  end.

Definition scale_type_value (m : ndi_scale_type) : Z :=
  match m with
  | NDI_SCALE_FAST_BILINEAR => 0 | NDI_SCALE_BILINEAR => 1
  | NDI_SCALE_BICUBIC => 2
  end.

(** A field of enum type holds whatever integer was cast into it; the
    [switch] statements and the [==] tests decode it.  [None] is a value
    that names no enumerator. *)
Definition resolution_mode_of (v : Z) : option ndi_resolution_mode :=
  if v =? 0 then Some NDI_RESOLUTION_AUTO
  else if v =? 1 then Some NDI_RESOLUTION_720P
  else if v =? 2 then Some NDI_RESOLUTION_1080P
  else if v =? 3 then Some NDI_RESOLUTION_1440P
  else if v =? 4 then Some NDI_RESOLUTION_4K
  else if v =? 5 then Some NDI_RESOLUTION_CUSTOM
  else None.

Definition framerate_mode_of (v : Z) : option ndi_framerate_mode :=
  if v =? 0 then Some NDI_FRAMERATE_AUTO
  else if v =? 1 then Some NDI_FRAMERATE_5
  else if v =? 2 then Some NDI_FRAMERATE_10
  else if v =? 3 then Some NDI_FRAMERATE_15
  else if v =? 4 then Some NDI_FRAMERATE_24
  else if v =? 5 then Some NDI_FRAMERATE_25
  else if v =? 6 then Some NDI_FRAMERATE_30
  else if v =? 7 then Some NDI_FRAMERATE_2997
  else if v =? 8 then Some NDI_FRAMERATE_50
  else if v =? 9 then Some NDI_FRAMERATE_60
  else if v =? 10 then Some NDI_FRAMERATE_5994
  else if v =? 11 then Some NDI_FRAMERATE_CUSTOM
  else None.

Definition scale_type_of (v : Z) : option ndi_scale_type :=
  if v =? 0 then Some NDI_SCALE_FAST_BILINEAR
  else if v =? 1 then Some NDI_SCALE_BILINEAR
  else if v =? 2 then Some NDI_SCALE_BICUBIC
  else None.

(** [video_scaler_t *]: a live scaler is known by the identity the
    allocator gave it and by the two [video_scale_info] it was created
    from. *)
Record video_scale_info := {
  vsi_format : Z;
  vsi_width : Z;
  vsi_height : Z
}.

Record video_scaler := {
  scaler_id : Z;
  scaler_dst : video_scale_info;
  scaler_src : video_scale_info;
  scaler_type : ndi_scale_type
}.

(** [ndi_video_converter_t].  Pointers are [option]s ([None] is
    [nullptr]); a buffer pointer is the address [bmalloc] returned. *)
Record ndi_video_converter := {
  enable_custom_resolution : bool;
  resolution_mode : Z;
  custom_width : Z;
  custom_height : Z;
  target_width : Z;
  target_height : Z;
  scale_type : Z;

  enable_crop : bool;
  crop_left : Z;
  crop_top : Z;
  crop_width : Z;
  crop_height : Z;

  enable_custom_framerate : bool;
  framerate_mode : Z;
  custom_fps_num : Z;
  custom_fps_den : Z;
  target_fps_num : Z;
  target_fps_den : Z;

  scaler : option video_scaler;
  scaled_buffer : option Z;
  scaled_buffer_size : Z;

  accumulator_ns : Z;
  target_frame_interval_ns : Z;
  last_frame_timestamp : Z;

  source_width : Z;
  source_height : Z;
  source_format : Z
}.

(** The settings snapshot: what [obs_data_get_bool] and
    [obs_data_get_int] return for the keys the converter reads.  The
    integers are [long long]. *)
Record obs_data := {
  s_enable_custom_resolution : bool;
  s_resolution_mode : Z;
  s_custom_width : Z;
  s_custom_height : Z;
  s_scale_type : Z;
  s_enable_crop : bool;
  s_crop_left : Z;
  s_crop_top : Z;
  s_crop_width : Z;
  s_crop_height : Z;
  s_enable_custom_framerate : bool;
  s_framerate_mode : Z;
  s_custom_fps_num : Z;
  s_custom_fps_den : Z
}.

(* ================================================================== *)
(** * Configuration resolver ([ndi-video-converter.cpp]) *)
(* ================================================================== *)

(** [memset(converter, 0, sizeof ...)]. *)
Definition zeroed : ndi_video_converter := {|
  enable_custom_resolution := false;
  resolution_mode := 0;
  custom_width := 0;
  custom_height := 0;
  target_width := 0;
  target_height := 0;
  scale_type := 0;
  enable_crop := false;
  crop_left := 0;
  crop_top := 0;
  crop_width := 0;
  crop_height := 0;
  enable_custom_framerate := false;
  framerate_mode := 0;
  custom_fps_num := 0;
  custom_fps_den := 0;
  target_fps_num := 0;
  target_fps_den := 0;
  scaler := None;
  scaled_buffer := None;
  scaled_buffer_size := 0;
  accumulator_ns := 0;
  target_frame_interval_ns := 0;
  last_frame_timestamp := 0;
  source_width := 0;
  source_height := 0;
  source_format := 0
|}.

(** Field updates, in the order the struct declares the fields. *)
Definition set_resolution (c : ndi_video_converter)
    (en : bool) (mode cw ch tw th st : Z) : ndi_video_converter := {|
  enable_custom_resolution := en;
  resolution_mode := mode;
  custom_width := cw;
  custom_height := ch;
  target_width := tw;
  target_height := th;
  scale_type := st;
  enable_crop := enable_crop c;
  crop_left := crop_left c;
  crop_top := crop_top c;
  crop_width := crop_width c;
  crop_height := crop_height c;
  enable_custom_framerate := enable_custom_framerate c;
  framerate_mode := framerate_mode c;
  custom_fps_num := custom_fps_num c;
  custom_fps_den := custom_fps_den c;
  target_fps_num := target_fps_num c;
  target_fps_den := target_fps_den c;
  scaler := scaler c;
  scaled_buffer := scaled_buffer c;
  scaled_buffer_size := scaled_buffer_size c;
  accumulator_ns := accumulator_ns c;
  target_frame_interval_ns := target_frame_interval_ns c;
  last_frame_timestamp := last_frame_timestamp c;
  source_width := source_width c;
  source_height := source_height c;
  source_format := source_format c
|}.

Definition set_crop (c : ndi_video_converter)
    (en : bool) (l t w h : Z) : ndi_video_converter := {|
  enable_custom_resolution := enable_custom_resolution c;
  resolution_mode := resolution_mode c;
  custom_width := custom_width c;
  custom_height := custom_height c;
  target_width := target_width c;
  target_height := target_height c;
  scale_type := scale_type c;
  enable_crop := en;
  crop_left := l;
  crop_top := t;
  crop_width := w;
  crop_height := h;
  enable_custom_framerate := enable_custom_framerate c;
  framerate_mode := framerate_mode c;
  custom_fps_num := custom_fps_num c;
  custom_fps_den := custom_fps_den c;
  target_fps_num := target_fps_num c;
  target_fps_den := target_fps_den c;
  scaler := scaler c;
  scaled_buffer := scaled_buffer c;
  scaled_buffer_size := scaled_buffer_size c;
  accumulator_ns := accumulator_ns c;
  target_frame_interval_ns := target_frame_interval_ns c;
  last_frame_timestamp := last_frame_timestamp c;
  source_width := source_width c;
  source_height := source_height c;
  source_format := source_format c
|}.

Definition set_framerate (c : ndi_video_converter)
    (en : bool) (mode cn cd tn td : Z) : ndi_video_converter := {|
  enable_custom_resolution := enable_custom_resolution c;
  resolution_mode := resolution_mode c;
  custom_width := custom_width c;
  custom_height := custom_height c;
  target_width := target_width c;
  target_height := target_height c;
  scale_type := scale_type c;
  enable_crop := enable_crop c;
  crop_left := crop_left c;
  crop_top := crop_top c;
  crop_width := crop_width c;
  crop_height := crop_height c;
  enable_custom_framerate := en;
  framerate_mode := mode;
  custom_fps_num := cn;
  custom_fps_den := cd;
  target_fps_num := tn;
  target_fps_den := td;
  scaler := scaler c;
  scaled_buffer := scaled_buffer c;
  scaled_buffer_size := scaled_buffer_size c;
  accumulator_ns := accumulator_ns c;
  target_frame_interval_ns := target_frame_interval_ns c;
  last_frame_timestamp := last_frame_timestamp c;
  source_width := source_width c;
  source_height := source_height c;
  source_format := source_format c
|}.

(** The pacing state: accumulator, interval and last timestamp. *)
Definition set_pacing (c : ndi_video_converter)
    (acc interval last : Z) : ndi_video_converter := {|
  enable_custom_resolution := enable_custom_resolution c;
  resolution_mode := resolution_mode c;
  custom_width := custom_width c;
  custom_height := custom_height c;
  target_width := target_width c;
  target_height := target_height c;
  scale_type := scale_type c;
  enable_crop := enable_crop c;
  crop_left := crop_left c;
  crop_top := crop_top c;
  crop_width := crop_width c;
  crop_height := crop_height c;
  enable_custom_framerate := enable_custom_framerate c;
  framerate_mode := framerate_mode c;
  custom_fps_num := custom_fps_num c;
  custom_fps_den := custom_fps_den c;
  target_fps_num := target_fps_num c;
  target_fps_den := target_fps_den c;
  scaler := scaler c;
  scaled_buffer := scaled_buffer c;
  scaled_buffer_size := scaled_buffer_size c;
  accumulator_ns := acc;
  target_frame_interval_ns := interval;
  last_frame_timestamp := last;
  source_width := source_width c;
  source_height := source_height c;
  source_format := source_format c
|}.

(** The conversion state: scaler, buffer and the source geometry the
    scaler was built for. *)
Definition set_scaling (c : ndi_video_converter)
    (sc : option video_scaler) (buf : option Z) (size sw sh sf : Z)
  : ndi_video_converter := {|
  enable_custom_resolution := enable_custom_resolution c;
  resolution_mode := resolution_mode c;
  custom_width := custom_width c;
  custom_height := custom_height c;
  target_width := target_width c;
  target_height := target_height c;
  scale_type := scale_type c;
  enable_crop := enable_crop c;
  crop_left := crop_left c;
  crop_top := crop_top c;
  crop_width := crop_width c;
  crop_height := crop_height c;
  enable_custom_framerate := enable_custom_framerate c;
  framerate_mode := framerate_mode c;
  custom_fps_num := custom_fps_num c;
  custom_fps_den := custom_fps_den c;
  target_fps_num := target_fps_num c;
  target_fps_den := target_fps_den c;
  scaler := sc;
  scaled_buffer := buf;
  scaled_buffer_size := size;
  accumulator_ns := accumulator_ns c;
  target_frame_interval_ns := target_frame_interval_ns c;
  last_frame_timestamp := last_frame_timestamp c;
  source_width := sw;
  source_height := sh;
  source_format := sf
|}.

Definition ndi_converter_init : ndi_video_converter :=
  let c := zeroed in
  let c := set_resolution c false
             (resolution_mode_value NDI_RESOLUTION_AUTO) 1920 1080 0 0
             (scale_type_value NDI_SCALE_BICUBIC) in
  set_framerate c false (framerate_mode_value NDI_FRAMERATE_AUTO) 30 1 0 0.

Definition ndi_converter_get_preset_resolution (mode : Z) : Z * Z :=
  match resolution_mode_of mode with
  | Some NDI_RESOLUTION_720P => (1280, 720)
  | Some NDI_RESOLUTION_1080P => (1920, 1080)
  | Some NDI_RESOLUTION_1440P => (2560, 1440)
  | Some NDI_RESOLUTION_4K => (3840, 2160)
  | _ => (0, 0)
  end.

Definition ndi_converter_get_preset_framerate (mode : Z) : Z * Z :=
  match framerate_mode_of mode with
  | Some NDI_FRAMERATE_5 => (5, 1)
  | Some NDI_FRAMERATE_10 => (10, 1)
  | Some NDI_FRAMERATE_15 => (15, 1)
  | Some NDI_FRAMERATE_24 => (24, 1)
  | Some NDI_FRAMERATE_25 => (25, 1)
  | Some NDI_FRAMERATE_30 => (30, 1)
  | Some NDI_FRAMERATE_2997 => (30000, 1001)
  | Some NDI_FRAMERATE_50 => (50, 1)
  | Some NDI_FRAMERATE_60 => (60, 1)
  | Some NDI_FRAMERATE_5994 => (60000, 1001)
  | _ => (0, 0)
  end.

(** [(int64_t)((1000000000.0 * den) / num)], on [uint32_t] operands:
    both are converted to [double], the product and the quotient are
    rounded to nearest, the cast truncates. *)
Definition frame_interval_ns (den num : Z) : Z :=
  Fp.to_int64
    (Fp.D.div (Fp.D.mul (Fp.D.of_Z 1000000000) (Fp.D.of_Z den))
              (Fp.D.of_Z num)).

Definition clamp_lo (lo v : Z) : Z := if v <? lo then lo else v.
Definition clamp_hi (hi v : Z) : Z := if hi <? v then hi else v.

(** [ndi_converter_update].  Each [obs_data_get_int] result is cast to
    the type of the field it is stored in. *)
Definition ndi_converter_update (c : ndi_video_converter) (settings : obs_data)
  : ndi_video_converter :=
  (* Resolution settings *)
  let en_res := s_enable_custom_resolution settings in
  let res_mode := wrap_u32 (s_resolution_mode settings) in
  let cw := wrap_u32 (s_custom_width settings) in
  let ch := wrap_u32 (s_custom_height settings) in
  let st := wrap_u32 (s_scale_type settings) in
  (* Validate custom resolution *)
  let cw := clamp_hi 7680 (clamp_lo 128 cw) in
  let ch := clamp_hi 4320 (clamp_lo 72 ch) in
  (* Calculate target resolution *)
  let '(tw, th) :=
    if en_res then
      match resolution_mode_of res_mode with
      | Some NDI_RESOLUTION_CUSTOM => (cw, ch)
      | _ => ndi_converter_get_preset_resolution res_mode
      end
    else (0, 0) in
  let c := set_resolution c en_res res_mode cw ch tw th st in
  (* Crop settings *)
  let cl := wrap_i32 (s_crop_left settings) in
  let ct := wrap_i32 (s_crop_top settings) in
  let cl := clamp_lo 0 cl in
  let ct := clamp_lo 0 ct in
  let c := set_crop c (s_enable_crop settings) cl ct
             (wrap_u32 (s_crop_width settings))
             (wrap_u32 (s_crop_height settings)) in
  (* Frame rate settings *)
  let en_fps := s_enable_custom_framerate settings in
  let fps_mode := wrap_u32 (s_framerate_mode settings) in
  let cn := clamp_lo 1 (wrap_u32 (s_custom_fps_num settings)) in
  let cd := clamp_lo 1 (wrap_u32 (s_custom_fps_den settings)) in
  (* Calculate target frame rate *)
  if en_fps then
    let '(tn, td) :=
      match framerate_mode_of fps_mode with
      | Some NDI_FRAMERATE_CUSTOM => (cn, cd)
      | _ => ndi_converter_get_preset_framerate fps_mode
      end in
    let interval :=
      if (0 <? tn) && (0 <? td) then frame_interval_ns td tn else 0 in
    let c := set_framerate c en_fps fps_mode cn cd tn td in
    (* Reset accumulator when settings change *)
    set_pacing c 0 interval 0
  else
    let c := set_framerate c en_fps fps_mode cn cd 0 0 in
    set_pacing c (accumulator_ns c) 0 (last_frame_timestamp c).

(* ================================================================== *)
(** * Resampler life cycle *)
(* ================================================================== *)

(** Calls into the host library made by the converter, in order. *)
Inductive host_call :=
| call_scaler_destroy (id : Z)
| call_scaler_create (id : Z) (dst src : video_scale_info)
    (ty : ndi_scale_type) (ok : bool)
| call_bfree (p : Z)
| call_bmalloc (p size : Z).

(** The host allocator: the next fresh identity and the calls so far
    (latest first). *)
Record host := {
  next_id : Z;
  calls : list host_call
}.

Definition host_call_log (h : host) (e : host_call) : host :=
  {| next_id := next_id h; calls := e :: calls h |}.

Definition host_fresh (h : host) : Z * host :=
  (next_id h, {| next_id := next_id h + 1; calls := calls h |}).

(** [VIDEO_FORMAT_BGRA] of the host's [enum video_format]. *)
Definition VIDEO_FORMAT_BGRA : Z := 7.

(** The [switch] from the converter's scale type to the host's. *)
Definition obs_scale_type_of (st : Z) : ndi_scale_type :=
  match scale_type_of st with
  | Some NDI_SCALE_FAST_BILINEAR => NDI_SCALE_FAST_BILINEAR
  | Some NDI_SCALE_BILINEAR => NDI_SCALE_BILINEAR
  | Some NDI_SCALE_BICUBIC => NDI_SCALE_BICUBIC
  | None => NDI_SCALE_BICUBIC
  end.

(** [size_t required_size = target_width * target_height * 4]: the
    product is formed in [uint32_t]. *)
Definition required_size (c : ndi_video_converter) : Z :=
  wrap_u32 (wrap_u32 (target_width c * target_height c) * 4).

Definition scaler_present (a : option video_scaler) : bool :=
  match a with Some _ => true | None => false end.

(** [ndi_converter_update_scaler].  [create_ok] is the outcome of
    [video_scaler_create], should this call reach it. *)
Definition ndi_converter_update_scaler (create_ok : bool) (h : host)
    (c : ndi_video_converter) (source_w source_h source_fmt : Z)
  : bool * ndi_video_converter * host :=
  if negb (enable_custom_resolution c) || (target_width c =? 0)
     || (target_height c =? 0)
  then (false, c, h)
  else
    (* Check if we need to recreate the scaler *)
    let need_recreate :=
      negb (scaler_present (scaler c))
      || negb (source_width c =? source_w)
      || negb (source_height c =? source_h)
      || negb (source_format c =? source_fmt) in
    if negb need_recreate then (true, c, h)
    else
      (* Destroy old scaler *)
      let h :=
        match scaler c with
        | Some s => host_call_log h (call_scaler_destroy (scaler_id s))
        | None => h
        end in
      (* Create new scaler *)
      let src_info := {| vsi_format := source_fmt; vsi_width := source_w;
                         vsi_height := source_h |} in
      let dst_info := {| vsi_format := VIDEO_FORMAT_BGRA;
                         vsi_width := target_width c;
                         vsi_height := target_height c |} in
      let ty := obs_scale_type_of (scale_type c) in
      let '(id, h) := host_fresh h in
      let h := host_call_log h (call_scaler_create id dst_info src_info ty create_ok) in
      if negb create_ok then
        (false,
         set_scaling c None (scaled_buffer c) (scaled_buffer_size c)
           (source_width c) (source_height c) (source_format c),
         h)
      else
        let sc := {| scaler_id := id; scaler_dst := dst_info;
                     scaler_src := src_info; scaler_type := ty |} in
        (* Allocate scaled buffer *)
        let required := required_size c in
        if scaled_buffer_size c <? required then
          let h :=
            match scaled_buffer c with
            | Some p => host_call_log h (call_bfree p)
            | None => h
            end in
          let '(p, h) := host_fresh h in
          let h := host_call_log h (call_bmalloc p required) in
          (true, set_scaling c (Some sc) (Some p) required
                   source_w source_h source_fmt, h)
        else
          (true, set_scaling c (Some sc) (scaled_buffer c)
                   (scaled_buffer_size c) source_w source_h source_fmt, h).

Definition ndi_converter_destroy (h : host) (c : ndi_video_converter)
  : ndi_video_converter * host :=
  let h :=
    match scaler c with
    | Some s => host_call_log h (call_scaler_destroy (scaler_id s))
    | None => h
    end in
  let h :=
    match scaled_buffer c with
    | Some p => host_call_log h (call_bfree p)
    | None => h
    end in
  (zeroed, h).

(* ================================================================== *)
(** * Frame pacing ([ndi_converter_should_send_frame]) *)
(* ================================================================== *)

(** The loop [while (accumulator_ns >= interval) { count++;
    accumulator_ns -= interval; }] on the pair (count, accumulator).
    [drain n] runs the loop for at most [2 ^ n] iterations and stops as
    soon as the loop test fails. *)
Fixpoint drain (n : nat) (interval : Z) (st : Z * Z) : Z * Z :=
  let '(count, acc) := st in
  if acc <? interval then st
  else
    match n with
    | O => (wrap_i32 (count + 1), wrap_i64 (acc - interval))
    | S n' => drain n' interval (drain n' interval st)
    end.

(** [ndi_converter_should_send_frame]: the returned [bool], the value
    left in [*frames_to_send], and the converter afterwards.  [None] when
    the loop has not left after [2 ^ 64] iterations. *)
Definition ndi_converter_should_send_frame (c : ndi_video_converter)
    (frame_timestamp : Z) : option (bool * Z * ndi_video_converter) :=
  let frames_to_send := 0 in
  if negb (enable_custom_framerate c) || (target_frame_interval_ns c =? 0)
  then Some (true, frames_to_send, c) (* No FPS conversion, send all frames *)
  else
    (* Calculate elapsed time since last frame *)
    let delta_ns :=
      if 0 <? last_frame_timestamp c
      then wrap_i64 (wrap_u64 (frame_timestamp - last_frame_timestamp c))
      else 0 in
    (* Add to accumulator *)
    let acc := wrap_i64 (accumulator_ns c + delta_ns) in
    (* Determine how many frames to send *)
    let interval := target_frame_interval_ns c in
    let '(count, acc) := drain 64 interval (0, acc) in
    if acc <? interval
    then Some (0 <? count, count, set_pacing c acc interval frame_timestamp)
    else None.

(* ================================================================== *)
(** * The frame callback ([ndi_filter_raw_video]) *)
(* ================================================================== *)

(** The part of [ndi_filter_t] the callback reads. *)
Record ndi_filter := {
  converter : ndi_video_converter;
  known_width : Z;
  known_height : Z;
  ovi_fps_num : Z;
  ovi_fps_den : Z
}.

(** [struct video_data]: plane 0 (its address, 0 for a null plane), its
    stride, and the timestamp. *)
Record video_data := {
  data0 : Z;
  linesize0 : Z;
  timestamp : Z
}.

(** What one [send_send_video_v2] call is given: the values the callback
    assigns to the fields of the frame it sends. *)
Record video_frame := {
  xres : Z;
  yres : Z;
  frame_rate_N : Z;
  frame_rate_D : Z;
  p_data : Z;
  line_stride_in_bytes : Z
}.

Definition empty_video_frame : video_frame :=
  {| xres := 0; yres := 0; frame_rate_N := 0; frame_rate_D := 0;
     p_data := 0; line_stride_in_bytes := 0 |}.

(** A crop rectangle: left, top, width, height. *)
Record rect := {
  r_left : Z;
  r_top : Z;
  r_width : Z;
  r_height : Z
}.

(** Source-space crop coordinates mapped to the scaled frame
    (lines 245-275).  [source_w] and [source_h] are what
    [obs_source_get_width] and [obs_source_get_height] return. *)
Definition crop_normalize (c : ndi_video_converter)
    (known_w known_h source_w source_h : Z) : rect :=
  let crop := {| r_left := crop_left c; r_top := crop_top c;
                 r_width := crop_width c; r_height := crop_height c |} in
  if enable_custom_resolution c && (0 <? target_width c)
     && (0 <? target_height c)
  then
    if (0 <? source_w) && (0 <? source_h) then
      (* Calculate scaling ratios *)
      let scale_x := Fp.S.div (Fp.S.of_Z known_w) (Fp.S.of_Z source_w) in
      let scale_y := Fp.S.div (Fp.S.of_Z known_h) (Fp.S.of_Z source_h) in
      (* Scale crop coordinates proportionally *)
      {| r_left := Fp.to_int32 (Fp.S.mul (Fp.S.of_Z (crop_left c)) scale_x);
         r_top := Fp.to_int32 (Fp.S.mul (Fp.S.of_Z (crop_top c)) scale_y);
         r_width := Fp.to_uint32 (Fp.S.mul (Fp.S.of_Z (crop_width c)) scale_x);
         r_height := Fp.to_uint32 (Fp.S.mul (Fp.S.of_Z (crop_height c)) scale_y) |}
    else crop
  else crop.

(** Lines 277-297: the full-dimension defaults and the clamps. *)
Definition crop_clamp (known_w known_h : Z) (r : rect) : rect :=
  let l := r_left r in
  let t := r_top r in
  let w := r_width r in
  let h := r_height r in
  (* 0 means use full dimension *)
  let w := if w =? 0 then known_w else w in
  let h := if h =? 0 then known_h else h in
  (* Clamp to valid range *)
  let l := if l <? 0 then 0 else l in
  let t := if t <? 0 then 0 else t in
  (* Don't reset to 0 - clamp to max valid position *)
  let l := if known_w <=? wrap_u32 l then wrap_i32 (wrap_u32 (known_w - 1)) else l in
  let t := if known_h <=? wrap_u32 t then wrap_i32 (wrap_u32 (known_h - 1)) else t in
  (* Clamp dimensions to fit within frame *)
  let w := if known_w <? wrap_u32 (l + w) then wrap_u32 (known_w - l) else w in
  let h := if known_h <? wrap_u32 (t + h) then wrap_u32 (known_h - t) else h in
  {| r_left := l; r_top := t; r_width := w; r_height := h |}.

(** The crop rectangle of one frame ("Crop applied" in the log). *)
Definition crop_rect (f : ndi_filter) (source_w source_h : Z) : rect :=
  crop_clamp (known_width f) (known_height f)
    (crop_normalize (converter f) (known_width f) (known_height f)
       source_w source_h).

Definition with_converter (f : ndi_filter) (c : ndi_video_converter)
  : ndi_filter :=
  {| converter := c; known_width := known_width f;
     known_height := known_height f; ovi_fps_num := ovi_fps_num f;
     ovi_fps_den := ovi_fps_den f |}.

(** [ndi_filter_raw_video] on a non-null [frame]: the filter afterwards
    and the frames handed to the sender, in order.  [None] as in
    [ndi_converter_should_send_frame]. *)
Definition ndi_filter_raw_video (f : ndi_filter) (frame : video_data)
    (source_w source_h : Z) : option (ndi_filter * list video_frame) :=
  (* Check frame rate limiting *)
  let paced :=
    if enable_custom_framerate (converter f) then
      match ndi_converter_should_send_frame (converter f) (timestamp frame) with
      | Some (should_send, n, c) =>
          Some (negb should_send || (n =? 0), n, with_converter f c)
      | None => None
      end
    else Some (false, 1, f) in
  match paced with
  | None => None
  | Some (true, _, f) => Some (f, [])  (* Skip this frame *)
  | Some (false, frames_to_send, f) =>
      let c := converter f in
      (* Determine frame rate metadata *)
      let '(ndi_fps_num, ndi_fps_den) :=
        if enable_custom_framerate c && (0 <? target_fps_num c)
           && (0 <? target_fps_den c)
        then (target_fps_num c, target_fps_den c)
        else (ovi_fps_num f, ovi_fps_den f) in
      (* Apply crop (AFTER scaling) if enabled *)
      let uncropped := (known_width f, known_height f, data0 frame) in
      let '(final_width, final_height, final_data) :=
        if enable_crop c && negb (data0 frame =? 0) then
          let r := crop_rect f source_w source_h in
          if (0 <? r_width r) && (0 <? r_height r)
             && ((0 <? r_left r) || (0 <? r_top r)
                 || (r_width r <? known_width f)
                 || (r_height r <? known_height f))
          then
            (r_width r, r_height r,
             data0 frame + wrap_u32 (r_top r * linesize0 frame)
             + wrap_i32 (r_left r * 4))
          else uncropped
        else uncropped in
      let vf :=
        if negb (data0 frame =? 0) then
          {| xres := final_width; yres := final_height;
             frame_rate_N := ndi_fps_num; frame_rate_D := ndi_fps_den;
             p_data := final_data;
             line_stride_in_bytes := linesize0 frame |}
        else empty_video_frame in
      Some (f, repeat vf (Z.to_nat frames_to_send))
  end.

(** Frames sent for one incoming frame. *)
Definition frames_sent (f : ndi_filter) (frame : video_data)
    (source_w source_h : Z) : option Z :=
  match ndi_filter_raw_video f frame source_w source_h with
  | Some (_, l) => Some (Z.of_nat (length l))
  | None => None
  end.

(** Feeding a run of frames to the pacer: per call the converter before,
    the timestamp, the results, and the converter after. *)
Record pace_call := {
  gc_before : ndi_video_converter;
  gc_timestamp : Z;
  gc_send : bool;
  gc_count : Z;
  gc_after : ndi_video_converter
}.

Fixpoint feed (c : ndi_video_converter) (tss : list Z)
  : option (list pace_call) :=
  match tss with
  | [] => Some []
  | ts :: rest =>
      match ndi_converter_should_send_frame c ts with
      | Some (b, n, c') =>
          match feed c' rest with
          | Some l =>
              Some ({| gc_before := c; gc_timestamp := ts; gc_send := b;
                       gc_count := n; gc_after := c' |} :: l)
          | None => None
          end
      | None => None
      end
  end.

Definition total_count (l : list pace_call) : Z :=
  fold_right (fun g s => gc_count g + s) 0 l.

(** [n] timestamps from [t0], [step] apart. *)
Fixpoint ticks (n : nat) (t0 step : Z) : list Z :=
  match n with
  | O => []
  | S n' => t0 :: ticks n' (t0 + step) step
  end.

(** The elapsed time the pacer adds for a frame, as the spec words it. *)
Definition elapsed (c : ndi_video_converter) (ts : Z) : Z :=
  if 0 <? last_frame_timestamp c then ts - last_frame_timestamp c else 0.

(** The frame-rate part of the configuration. *)
Definition framerate_config (c : ndi_video_converter)
  : bool * Z * Z * Z * Z * Z * Z :=
  (enable_custom_framerate c, framerate_mode c, custom_fps_num c,
   custom_fps_den c, target_fps_num c, target_fps_den c,
   target_frame_interval_ns c).

(** Settings as [ndi_filter_getdefaults] registers them. *)
Definition default_settings : obs_data := {|
  s_enable_custom_resolution := false;
  s_resolution_mode := resolution_mode_value NDI_RESOLUTION_1080P;
  s_custom_width := 1920;
  s_custom_height := 1080;
  s_scale_type := scale_type_value NDI_SCALE_BICUBIC;
  s_enable_crop := false;
  s_crop_left := 0;
  s_crop_top := 0;
  s_crop_width := 0;
  s_crop_height := 0;
  s_enable_custom_framerate := false;
  s_framerate_mode := framerate_mode_value NDI_FRAMERATE_30;
  s_custom_fps_num := 30;
  s_custom_fps_den := 1
|}.

Definition with_framerate (s : obs_data) (en : bool) (mode num den : Z)
  : obs_data := {|
  s_enable_custom_resolution := s_enable_custom_resolution s;
  s_resolution_mode := s_resolution_mode s;
  s_custom_width := s_custom_width s;
  s_custom_height := s_custom_height s;
  s_scale_type := s_scale_type s;
  s_enable_crop := s_enable_crop s;
  s_crop_left := s_crop_left s;
  s_crop_top := s_crop_top s;
  s_crop_width := s_crop_width s;
  s_crop_height := s_crop_height s;
  s_enable_custom_framerate := en;
  s_framerate_mode := mode;
  s_custom_fps_num := num;
  s_custom_fps_den := den
|}.

Definition with_resolution (s : obs_data) (en : bool) (mode w h : Z)
  : obs_data := {|
  s_enable_custom_resolution := en;
  s_resolution_mode := mode;
  s_custom_width := w;
  s_custom_height := h;
  s_scale_type := s_scale_type s;
  s_enable_crop := s_enable_crop s;
  s_crop_left := s_crop_left s;
  s_crop_top := s_crop_top s;
  s_crop_width := s_crop_width s;
  s_crop_height := s_crop_height s;
  s_enable_custom_framerate := s_enable_custom_framerate s;
  s_framerate_mode := s_framerate_mode s;
  s_custom_fps_num := s_custom_fps_num s;
  s_custom_fps_den := s_custom_fps_den s
|}.

Definition with_crop (s : obs_data) (en : bool) (l t w h : Z)
  : obs_data := {|
  s_enable_custom_resolution := s_enable_custom_resolution s;
  s_resolution_mode := s_resolution_mode s;
  s_custom_width := s_custom_width s;
  s_custom_height := s_custom_height s;
  s_scale_type := s_scale_type s;
  s_enable_crop := en;
  s_crop_left := l;
  s_crop_top := t;
  s_crop_width := w;
  s_crop_height := h;
  s_enable_custom_framerate := s_enable_custom_framerate s;
  s_framerate_mode := s_framerate_mode s;
  s_custom_fps_num := s_custom_fps_num s;
  s_custom_fps_den := s_custom_fps_den s
|}.

(** Converter states the program can be in: from [ndi_converter_init],
    through settings updates, scaler updates, pacing calls and
    [ndi_converter_destroy]. *)
Inductive reachable : ndi_video_converter -> Prop :=
| reach_init : reachable ndi_converter_init
| reach_update c s :
    reachable c -> reachable (ndi_converter_update c s)
| reach_update_scaler c ok h sw sh sf :
    reachable c ->
    reachable (snd (fst (ndi_converter_update_scaler ok h c sw sh sf)))
| reach_should_send c ts b n c' :
    reachable c ->
    ndi_converter_should_send_frame c ts = Some (b, n, c') ->
    reachable c'
| reach_destroy c h :
    reachable c -> reachable (fst (ndi_converter_destroy h c)).

(** Timestamps the pacer takes without leaving its integer types: each
    at or after the previous one, and each gap [d] with
    [d + interval <= min (2^63) (2^31 * interval)]. *)
Fixpoint paced_run (interval last : Z) (tss : list Z) : Prop :=
  match tss with
  | [] => True
  | ts :: rest =>
      Z.max 0 last <= ts < 2 ^ 64
      /\ (if 0 <? last then ts - last else 0) + interval
         <= Z.min (2 ^ 63) (2 ^ 31 * interval)
      /\ paced_run interval ts rest
  end.

(** What one pacing call promises. *)
Definition pace_call_ok (g : pace_call) : Prop :=
  let c := gc_before g in
  gc_count g
  = (accumulator_ns c + elapsed c (gc_timestamp g))
    / target_frame_interval_ns c
  /\ 0 <= accumulator_ns (gc_after g) < target_frame_interval_ns c
  /\ (last_frame_timestamp c = 0 -> accumulator_ns c = 0 -> gc_count g = 0).

(** The converter after a run of frames was paced. *)
Definition after_frames (c : ndi_video_converter) (tss : list Z)
  : ndi_video_converter :=
  match feed c tss with
  | Some l => last (map gc_after l) c
  | None => c
  end.

(** The interval as the spec words it: [round(1e9 * den / num)], to the
    nearest integer. *)
Definition spec_interval_ns (den num : Z) : Z :=
  (2 * (1000000000 * den) + num) / (2 * num).

(** Example configurations. *)
Definition settings_fps (mode : ndi_framerate_mode) : obs_data :=
  with_framerate default_settings true (framerate_mode_value mode) 30 1.

Definition settings_custom_fps (num den : Z) : obs_data :=
  with_framerate default_settings true
    (framerate_mode_value NDI_FRAMERATE_CUSTOM) num den.

Definition settings_res (mode : ndi_resolution_mode) : obs_data :=
  with_resolution default_settings true (resolution_mode_value mode) 1920 1080.

Definition converter_fps (mode : ndi_framerate_mode) : ndi_video_converter :=
  ndi_converter_update ndi_converter_init (settings_fps mode).

Definition filter_1080p (c : ndi_video_converter) : ndi_filter :=
  {| converter := c; known_width := 1920; known_height := 1080;
     ovi_fps_num := 60; ovi_fps_den := 1 |}.

Definition frame_at (ts : Z) : video_data :=
  {| data0 := 4096; linesize0 := 7680; timestamp := ts |}.

Definition host0 : host := {| next_id := 1; calls := [] |}.

(** A 3840x2160 source scaled to the 720p preset, then the settings
    changed to the 1080p preset. *)
Definition scaled_720p : bool * ndi_video_converter * host :=
  ndi_converter_update_scaler true host0
    (ndi_converter_update ndi_converter_init (settings_res NDI_RESOLUTION_720P))
    3840 2160 2.

Definition retargeted_1080p : ndi_video_converter :=
  ndi_converter_update (snd (fst scaled_720p))
    (settings_res NDI_RESOLUTION_1080P).


Definition converter_crop_1080p (l t w h : Z) : ndi_video_converter :=
  ndi_converter_update ndi_converter_init
    (with_crop (settings_res NDI_RESOLUTION_1080P) true l t w h).

(** A rectangle that lies inside a [known_w] x [known_h] frame and is
    not empty. *)
Definition rect_in_frame (known_w known_h : Z) (r : rect) : Prop :=
  0 <= r_left r <= known_w - 1
  /\ 0 <= r_top r <= known_h - 1
  /\ 1 <= r_width r
  /\ 1 <= r_height r
  /\ r_left r + r_width r <= known_w
  /\ r_top r + r_height r <= known_h.

(* ================================================================== *)
(** * Machine-integer facts *)
(* ================================================================== *)

Lemma wrap_u32_range z : 0 <= wrap_u32 z < 2 ^ 32.
Proof. unfold wrap_u32. apply Z.mod_pos_bound. lia. Qed.

Lemma wrap_u32_id z : 0 <= z < 2 ^ 32 -> wrap_u32 z = z.
Proof. intros H. unfold wrap_u32. apply Z.mod_small. exact H. Qed.

Lemma wrap_u64_id z : 0 <= z < 2 ^ 64 -> wrap_u64 z = z.
Proof. intros H. unfold wrap_u64. apply Z.mod_small. exact H. Qed.

Lemma wrap_i32_range z : - 2 ^ 31 <= wrap_i32 z < 2 ^ 31.
Proof.
  unfold wrap_i32.
  pose proof (Z.mod_pos_bound (z + 2 ^ 31) (2 ^ 32) ltac:(lia)). lia.
Qed.

Lemma wrap_i64_range z : - 2 ^ 63 <= wrap_i64 z < 2 ^ 63.
Proof.
  unfold wrap_i64.
  pose proof (Z.mod_pos_bound (z + 2 ^ 63) (2 ^ 64) ltac:(lia)). lia.
Qed.

Lemma wrap_i32_id z : - 2 ^ 31 <= z < 2 ^ 31 -> wrap_i32 z = z.
Proof.
  intros H. unfold wrap_i32. rewrite Z.mod_small; lia.
Qed.

Lemma wrap_i64_id z : - 2 ^ 63 <= z < 2 ^ 63 -> wrap_i64 z = z.
Proof.
  intros H. unfold wrap_i64. rewrite Z.mod_small; lia.
Qed.

Lemma clamp_lo_spec lo v : clamp_lo lo v = Z.max lo v.
Proof. unfold clamp_lo. destruct (Z.ltb_spec v lo); lia. Qed.

Lemma clamp_hi_spec hi v : clamp_hi hi v = Z.min hi v.
Proof. unfold clamp_hi. destruct (Z.ltb_spec hi v); lia. Qed.

(* ================================================================== *)
(** * The pacing loop *)
(* ================================================================== *)

Section Drain.

Variable interval : Z.
Hypothesis interval_pos : 0 < interval.

(** Quotient and remainder after taking [k] intervals out. *)
Lemma div_sub_mul a k : (a - k * interval) / interval = a / interval - k.
Proof.
  replace (a - k * interval) with (a + (- k) * interval) by ring.
  rewrite Z.div_add by lia. ring.
Qed.

(** [drain n] takes [min (acc / interval) (2 ^ n)] intervals out. *)
Lemma drain_steps n : forall count acc,
    0 <= count -> 0 <= acc < 2 ^ 63 ->
    count + acc / interval <= INT_MAX ->
    drain n interval (count, acc)
    = (count + Z.min (acc / interval) (2 ^ Z.of_nat n),
       acc - Z.min (acc / interval) (2 ^ Z.of_nat n) * interval).
Proof.
  induction n as [|n IH]; intros count acc Hc Ha Hq.
  - cbn [drain]. destruct (Z.ltb_spec acc interval) as [Hlt|Hge].
    + rewrite Z.div_small by lia. simpl. f_equal; lia.
    + assert (1 <= acc / interval) by (apply Z.div_le_lower_bound; lia).
      change (2 ^ Z.of_nat 0) with 1. rewrite Z.min_r by lia.
      unfold INT_MAX in Hq.
      rewrite wrap_i32_id by lia. rewrite wrap_i64_id by lia.
      f_equal; lia.
  - cbn [drain]. destruct (Z.ltb_spec acc interval) as [Hlt|Hge].
    + rewrite Z.div_small by lia.
      assert (0 < 2 ^ Z.of_nat (S n)) by (apply Z.pow_pos_nonneg; lia).
      rewrite Z.min_l by lia. f_equal; lia.
    + assert (Hq0 : 0 <= acc / interval) by (apply Z.div_pos; lia).
      assert (Hp : 0 < 2 ^ Z.of_nat n) by (apply Z.pow_pos_nonneg; lia).
      assert (Hp2 : 2 ^ Z.of_nat (S n) = 2 * 2 ^ Z.of_nat n).
      { rewrite Nat2Z.inj_succ, Z.pow_succ_r by lia. reflexivity. }
      pose proof (Z.mul_div_le acc interval interval_pos) as Hmul.
      set (k1 := Z.min (acc / interval) (2 ^ Z.of_nat n)).
      assert (Hk1 : 0 <= k1 <= acc / interval) by (unfold k1; lia).
      assert (Hk1m : k1 * interval <= acc) by nia.
      rewrite (IH count acc) by lia. fold k1.
      rewrite (IH (count + k1) (acc - k1 * interval)).
      * rewrite div_sub_mul. rewrite Hp2.
        f_equal; unfold k1; lia.
      * lia.
      * nia.
      * rewrite div_sub_mul. lia.
Qed.

(** The loop leaves with quotient and remainder. *)
Lemma drain_div_mod acc :
  0 <= acc < 2 ^ 63 -> acc / interval <= INT_MAX ->
  drain 64 interval (0, acc) = (acc / interval, acc mod interval).
Proof.
  intros Ha Hq.
  rewrite drain_steps by lia.
  assert (acc / interval <= acc).
  { apply Z.div_le_upper_bound; nia. }
  assert (0 <= acc / interval) by (apply Z.div_pos; lia).
  change (2 ^ Z.of_nat 64) with (2 ^ 64).
  rewrite Z.min_l by lia.
  rewrite Z.mod_eq by lia. f_equal; lia.
Qed.

(** Whatever the count does, the loop leaves: the accumulator ends
    below the interval. *)
Lemma drain_accumulator n : forall count acc,
    acc < 2 ^ 63 ->
    exists count',
      drain n interval (count, acc)
      = (count',
         acc - Z.min (Z.max 0 (acc / interval)) (2 ^ Z.of_nat n) * interval).
Proof.
  induction n as [|n IH]; intros count acc Ha; cbn [drain].
  - destruct (Z.ltb_spec acc interval) as [Hlt|Hge].
    + exists count. f_equal.
      assert (acc / interval <= 0).
      { destruct (Z_lt_le_dec acc 0).
        - assert (acc / interval < 0) by (apply Z.div_lt_upper_bound; lia). lia.
        - rewrite Z.div_small by lia. lia. }
      change (2 ^ Z.of_nat 0) with 1. lia.
    + assert (1 <= acc / interval) by (apply Z.div_le_lower_bound; lia).
      change (2 ^ Z.of_nat 0) with 1.
      eexists. f_equal. rewrite wrap_i64_id by lia. lia.
  - assert (Hp : 0 < 2 ^ Z.of_nat n) by (apply Z.pow_pos_nonneg; lia).
    assert (Hp2 : 2 ^ Z.of_nat (S n) = 2 * 2 ^ Z.of_nat n).
    { rewrite Nat2Z.inj_succ, Z.pow_succ_r by lia. reflexivity. }
    destruct (Z.ltb_spec acc interval) as [Hlt|Hge].
    + exists count. f_equal.
      assert (acc / interval <= 0).
      { destruct (Z_lt_le_dec acc 0).
        - assert (acc / interval < 0) by (apply Z.div_lt_upper_bound; lia). lia.
        - rewrite Z.div_small by lia. lia. }
      lia.
    + assert (Hq0 : 1 <= acc / interval) by (apply Z.div_le_lower_bound; lia).
      pose proof (Z.mul_div_le acc interval interval_pos) as Hmul.
      destruct (IH count acc Ha) as (c1 & E1). rewrite E1.
      set (k1 := Z.min (Z.max 0 (acc / interval)) (2 ^ Z.of_nat n)) in *.
      assert (Hk1 : 0 <= k1 <= acc / interval) by (unfold k1; lia).
      assert (Hk1m : k1 * interval <= acc) by nia.
      destruct (IH c1 (acc - k1 * interval)) as (c2 & E2); [nia|].
      rewrite E2. exists c2. f_equal.
      rewrite div_sub_mul, Hp2.
      assert (Hk : k1 + Z.min (Z.max 0 (acc / interval - k1)) (2 ^ Z.of_nat n)
                   = Z.min (Z.max 0 (acc / interval)) (2 * 2 ^ Z.of_nat n))
        by (unfold k1; lia).
      rewrite <- Hk. ring.
Qed.

End Drain.

(** [ndi_converter_should_send_frame] returns for every converter with a
    positive interval and every timestamp. *)
Lemma should_send_frame_total c ts :
  0 < target_frame_interval_ns c ->
  exists r, ndi_converter_should_send_frame c ts = Some r.
Proof.
  intros HT. unfold ndi_converter_should_send_frame.
  destruct (negb (enable_custom_framerate c)
            || (target_frame_interval_ns c =? 0)); [eauto|].
  set (acc := wrap_i64 _).
  pose proof (wrap_i64_range
                (accumulator_ns c
                 + (if 0 <? last_frame_timestamp c
                    then wrap_i64 (wrap_u64 (ts - last_frame_timestamp c))
                    else 0))) as Hr.
  fold acc in Hr.
  destruct (drain_accumulator _ HT 64 0 acc ltac:(lia)) as (k & E).
  rewrite E.
  set (T := target_frame_interval_ns c) in *.
  assert (Hlt : acc - Z.min (Z.max 0 (acc / T)) (2 ^ Z.of_nat 64) * T < T).
  { change (2 ^ Z.of_nat 64) with (2 ^ 64).
    destruct (Z_lt_le_dec acc T).
    - assert (acc / T <= 0).
      { destruct (Z_lt_le_dec acc 0).
        + assert (acc / T < 0) by (apply Z.div_lt_upper_bound; lia). lia.
        + rewrite Z.div_small by lia. lia. }
      lia.
    - assert (0 <= acc / T <= acc).
      { split; [apply Z.div_pos; lia|].
        apply Z.div_le_upper_bound; nia. }
      pose proof (Z.mod_pos_bound acc T HT).
      rewrite Z.mod_eq in * by lia. lia. }
  destruct (Z.ltb_spec (acc - Z.min (Z.max 0 (acc / T)) (2 ^ Z.of_nat 64) * T) T);
    [eauto|lia].
Qed.

(** One pacing call, when conversion is on: quotient emitted,
    remainder kept. *)
Lemma should_send_frame_paced c ts :
  enable_custom_framerate c = true ->
  0 < target_frame_interval_ns c ->
  0 <= accumulator_ns c ->
  0 <= elapsed c ts ->
  0 <= ts < 2 ^ 64 ->
  accumulator_ns c + elapsed c ts < 2 ^ 63 ->
  (accumulator_ns c + elapsed c ts) / target_frame_interval_ns c <= INT_MAX ->
  ndi_converter_should_send_frame c ts
  = Some (0 <? (accumulator_ns c + elapsed c ts) / target_frame_interval_ns c,
          (accumulator_ns c + elapsed c ts) / target_frame_interval_ns c,
          set_pacing c
            ((accumulator_ns c + elapsed c ts) mod target_frame_interval_ns c)
            (target_frame_interval_ns c) ts).
Proof.
  intros Hen HT Hacc Hel Hts Hsum Hq.
  unfold ndi_converter_should_send_frame.
  rewrite Hen. cbn [negb orb].
  destruct (Z.eqb_spec (target_frame_interval_ns c) 0) as [E|_]; [lia|].
  assert (Hd : (if 0 <? last_frame_timestamp c
                then wrap_i64 (wrap_u64 (ts - last_frame_timestamp c))
                else 0) = elapsed c ts).
  { unfold elapsed in *.
    destruct (Z.ltb_spec 0 (last_frame_timestamp c)); [|reflexivity].
    rewrite wrap_u64_id by lia. apply wrap_i64_id. lia. }
  rewrite Hd.
  rewrite wrap_i64_id by lia.
  rewrite (drain_div_mod _ HT) by lia.
  pose proof (Z.mod_pos_bound (accumulator_ns c + elapsed c ts)
                (target_frame_interval_ns c) HT) as Hm.
  destruct (Z.ltb_spec ((accumulator_ns c + elapsed c ts)
                          mod target_frame_interval_ns c)
              (target_frame_interval_ns c)); [reflexivity|lia].
Qed.

Lemma quotient_fits interval acc d :
  0 < interval -> 0 <= acc < interval -> 0 <= d ->
  d + interval <= Z.min (2 ^ 63) (2 ^ 31 * interval) ->
  acc + d < 2 ^ 63 /\ (acc + d) / interval <= INT_MAX.
Proof.
  intros HT Ha Hd Hb. split; [lia|].
  unfold INT_MAX.
  assert ((acc + d) / interval < 2 ^ 31); [|lia].
  apply Z.div_lt_upper_bound; lia.
Qed.

Lemma feed_paced tss : forall c,
    enable_custom_framerate c = true ->
    0 < target_frame_interval_ns c ->
    0 <= accumulator_ns c < target_frame_interval_ns c ->
    paced_run (target_frame_interval_ns c) (last_frame_timestamp c) tss ->
    exists l, feed c tss = Some l /\ Forall pace_call_ok l.
Proof.
  induction tss as [|ts rest IH]; intros c Hen HT Hacc Hrun.
  - exists []. split; [reflexivity|constructor].
  - destruct Hrun as (Hts & Hgap & Hrest).
    assert (Hel : 0 <= elapsed c ts).
    { unfold elapsed. destruct (0 <? last_frame_timestamp c); lia. }
    fold (elapsed c ts) in Hgap.
    destruct (quotient_fits _ _ _ HT Hacc Hel Hgap) as [Hsum Hq].
    pose proof (should_send_frame_paced c ts Hen HT (proj1 Hacc) Hel
                  ltac:(lia) Hsum Hq) as Hstep.
    pose proof (Z.mod_pos_bound (accumulator_ns c + elapsed c ts)
                  (target_frame_interval_ns c) HT) as Hm.
    set (c' := set_pacing c
                 ((accumulator_ns c + elapsed c ts)
                    mod target_frame_interval_ns c)
                 (target_frame_interval_ns c) ts) in *.
    destruct (IH c') as (l & Hl & Hok); try assumption.
    { cbn [feed]. rewrite Hstep, Hl. eexists. split; [reflexivity|].
      constructor; [|exact Hok].
      unfold pace_call_ok; cbn [gc_before gc_count gc_after gc_timestamp].
      split; [reflexivity|]. split; [exact Hm|].
      intros Hl0 Ha0. unfold elapsed. rewrite Hl0, Ha0. reflexivity. }
Qed.

(** A steady source: [n] frames [step] apart after the last one seen.
    The counts add up to the quotient of the time fed in, the rest stays
    in the accumulator. *)
Lemma feed_ticks step n : forall c,
    enable_custom_framerate c = true ->
    0 < target_frame_interval_ns c ->
    0 <= accumulator_ns c < target_frame_interval_ns c ->
    0 < last_frame_timestamp c ->
    0 <= step ->
    step + target_frame_interval_ns c
    <= Z.min (2 ^ 63) (2 ^ 31 * target_frame_interval_ns c) ->
    last_frame_timestamp c + Z.of_nat n * step < 2 ^ 64 ->
    exists l,
      feed c (ticks n (last_frame_timestamp c + step) step) = Some l
      /\ total_count l
         = (accumulator_ns c + Z.of_nat n * step) / target_frame_interval_ns c.
Proof.
  induction n as [|n IH]; intros c Hen HT Hacc Hlast Hstep Hb Hend.
  - exists []. split; [reflexivity|].
    cbn. rewrite Z.add_0_r. symmetry. apply Z.div_small. exact Hacc.
  - cbn [ticks feed].
    rewrite Nat2Z.inj_succ in *.
    assert (Hel : elapsed c (last_frame_timestamp c + step) = step).
    { unfold elapsed. destruct (Z.ltb_spec 0 (last_frame_timestamp c)); lia. }
    destruct (quotient_fits _ _ _ HT Hacc Hstep Hb) as [Hsum Hq].
    rewrite should_send_frame_paced; rewrite ?Hel; try assumption; try lia.
    pose proof (Z.mod_pos_bound (accumulator_ns c + step)
                  (target_frame_interval_ns c) HT) as Hm.
    pose proof (Z.div_mod (accumulator_ns c + step)
                  (target_frame_interval_ns c) ltac:(lia)) as Hdm.
    set (q := (accumulator_ns c + step) / target_frame_interval_ns c) in *.
    set (r := (accumulator_ns c + step) mod target_frame_interval_ns c) in *.
    set (c' := set_pacing c r (target_frame_interval_ns c)
                 (last_frame_timestamp c + step)).
    destruct (IH c') as (l & Hl & Htot); try assumption.
    { change (last_frame_timestamp c') with (last_frame_timestamp c + step).
      nia. }
    { change (last_frame_timestamp c') with (last_frame_timestamp c + step).
      nia. }
    change (last_frame_timestamp c') with (last_frame_timestamp c + step) in Hl.
    rewrite Hl. eexists. split; [reflexivity|].
    cbn [total_count fold_right gc_count]. fold (total_count l).
    rewrite Htot.
    change (accumulator_ns c') with r.
    change (target_frame_interval_ns c') with (target_frame_interval_ns c).
    rewrite <- Z.div_add_l by lia. f_equal. lia.
Qed.

(* ================================================================== *)
(** * The resolver's frame-rate branch *)
(* ================================================================== *)

Lemma update_framerate_on c s :
  s_enable_custom_framerate s = true ->
  let c' := ndi_converter_update c s in
  enable_custom_framerate c' = true
  /\ accumulator_ns c' = 0
  /\ last_frame_timestamp c' = 0
  /\ target_frame_interval_ns c'
     = if (0 <? target_fps_num c') && (0 <? target_fps_den c')
       then frame_interval_ns (target_fps_den c') (target_fps_num c')
       else 0.
Proof.
  intros Hen. unfold ndi_converter_update. rewrite Hen.
  destruct (if s_enable_custom_resolution s then _ else _) as [tw th].
  destruct (match framerate_mode_of _ with
            | Some NDI_FRAMERATE_CUSTOM => _ | _ => _ end) as [tn td].
  cbn. auto.
Qed.

Lemma update_framerate_off c s :
  s_enable_custom_framerate s = false ->
  let c' := ndi_converter_update c s in
  enable_custom_framerate c' = false
  /\ accumulator_ns c' = accumulator_ns c
  /\ last_frame_timestamp c' = last_frame_timestamp c
  /\ target_frame_interval_ns c' = 0
  /\ target_fps_num c' = 0
  /\ target_fps_den c' = 0.
Proof.
  intros Hen. unfold ndi_converter_update. rewrite Hen.
  destruct (if s_enable_custom_resolution s then _ else _) as [tw th].
  cbn. auto 7.
Qed.

Lemma feed_length tss : forall c l,
    feed c tss = Some l -> length l = length tss.
Proof.
  induction tss as [|ts rest IH]; intros c l Hl; cbn [feed] in Hl.
  - injection Hl as <-. reflexivity.
  - destruct (ndi_converter_should_send_frame c ts) as [[[b k] c']|];
      [|discriminate].
    destruct (feed c' rest) as [l'|] eqn:E; [|discriminate].
    injection Hl as <-. cbn [length]. f_equal. eapply IH. exact E.
Qed.

Lemma ticks_length n : forall t0 step, length (ticks n t0 step) = n.
Proof.
  induction n as [|n IH]; intros t0 step; cbn; [reflexivity|].
  f_equal. apply IH.
Qed.

(* ================================================================== *)
(** * Claims about frame pacing *)
(* ================================================================== *)

(** C1 (the code departs from it).  With frame-rate conversion disabled,
    or with a zero target interval, [ndi_converter_should_send_frame]
    returns [true] and touches nothing, but the count it leaves in
    [*frames_to_send] is 0, not 1.  [ndi_filter_raw_video] skips the call
    when conversion is disabled and sends the frame once; when conversion
    is enabled with a zero interval it makes the call, reads the count 0
    and sends nothing. *)
Theorem bypass_leaves_count_zero c ts :
  negb (enable_custom_framerate c) || (target_frame_interval_ns c =? 0) = true ->
  ndi_converter_should_send_frame c ts = Some (true, 0, c)
  /\ forall f frame source_w source_h,
      converter f = c -> timestamp frame = ts ->
      frames_sent f frame source_w source_h
      = Some (if enable_custom_framerate c then 0 else 1).
Proof.
  intros H.
  assert (Hs : ndi_converter_should_send_frame c ts = Some (true, 0, c)).
  { unfold ndi_converter_should_send_frame. rewrite H. reflexivity. }
  split; [exact Hs|].
  intros f frame sw sh Hf Hts. subst c ts.
  unfold frames_sent, ndi_filter_raw_video.
  destruct (enable_custom_framerate (converter f)) eqn:Hen.
  - rewrite Hs. reflexivity.
  - rewrite Hen. cbn [andb].
    destruct (if enable_crop (converter f) && negb (data0 frame =? 0)
              then _ else _) as [[fw fh] fd].
    rewrite repeat_length. reflexivity.
Qed.

Lemma bypass_leaves_count_zero_witness :
  negb (enable_custom_framerate (converter_fps NDI_FRAMERATE_AUTO))
  || (target_frame_interval_ns (converter_fps NDI_FRAMERATE_AUTO) =? 0) = true
  /\ ndi_converter_should_send_frame (converter_fps NDI_FRAMERATE_AUTO) 1000
     = Some (true, 0, converter_fps NDI_FRAMERATE_AUTO)
  /\ frames_sent (filter_1080p (converter_fps NDI_FRAMERATE_AUTO))
       (frame_at 1000) 1920 1080
     = Some 0.
Proof.
  assert (H : negb (enable_custom_framerate (converter_fps NDI_FRAMERATE_AUTO))
              || (target_frame_interval_ns (converter_fps NDI_FRAMERATE_AUTO)
                  =? 0) = true) by reflexivity.
  destruct (bypass_leaves_count_zero
              (converter_fps NDI_FRAMERATE_AUTO) 1000 H) as [Hs Hf].
  split; [exact H|]. split; [exact Hs|].
  exact (Hf (filter_1080p (converter_fps NDI_FRAMERATE_AUTO)) (frame_at 1000)
            1920 1080 eq_refl eq_refl).
Defined.

(** C3 (as amended).  With frame-rate conversion enabled at target
    30000/1001 the resolver leaves a freshly reset pacing state and an
    interval of 33366666 ns; 1001 consecutive frames spaced exactly
    33333333 ns apart, the first at any positive timestamp, then make
    [ndi_converter_should_send_frame] return counts that add up to
    exactly 999: the first frame contributes no elapsed time, and the
    1000 gaps hold 999 whole intervals. *)
Theorem ntsc_cadence_total c0 s t0 :
  s_enable_custom_framerate s = true ->
  target_fps_num (ndi_converter_update c0 s) = 30000 ->
  target_fps_den (ndi_converter_update c0 s) = 1001 ->
  0 < t0 -> t0 + 1000 * 33333333 < 2 ^ 64 ->
  accumulator_ns (ndi_converter_update c0 s) = 0
  /\ last_frame_timestamp (ndi_converter_update c0 s) = 0
  /\ exists l,
      feed (ndi_converter_update c0 s) (ticks 1001 t0 33333333) = Some l
      /\ length l = 1001%nat
      /\ total_count l = 999.
Proof.
  intros Hen Hn Hd Ht0 Hend.
  destruct (update_framerate_on c0 s Hen) as (Hen' & Hacc & Hlast & HT).
  cbv zeta in HT. rewrite Hn, Hd in HT.
  change (if (0 <? 30000) && (0 <? 1001)
          then frame_interval_ns 1001 30000 else 0)
    with 33366666 in HT.
  set (c := ndi_converter_update c0 s) in *.
  split; [exact Hacc|]. split; [exact Hlast|].
  assert (Hel : elapsed c t0 = 0) by (unfold elapsed; rewrite Hlast; reflexivity).
  assert (Hstep : ndi_converter_should_send_frame c t0
                  = Some (false, 0, set_pacing c 0 33366666 t0)).
  { rewrite should_send_frame_paced; rewrite ?Hel, ?Hacc, ?HT;
      try assumption; try reflexivity; try lia.
    unfold INT_MAX. change ((0 + 0) / 33366666) with 0. lia. }
  set (c1 := set_pacing c 0 33366666 t0) in *.
  destruct (feed_ticks 33333333 1000 c1) as (l & Hl & Htot).
  { exact Hen'. }
  { reflexivity. }
  { split; [discriminate|reflexivity]. }
  { exact Ht0. }
  { lia. }
  { change (target_frame_interval_ns c1) with 33366666. lia. }
  { change (last_frame_timestamp c1) with t0.
    change (Z.of_nat 1000) with 1000. lia. }
  change (last_frame_timestamp c1) with t0 in Hl.
  change (accumulator_ns c1) with 0 in Htot.
  change (target_frame_interval_ns c1) with 33366666 in Htot.
  change (ticks 1001 t0 33333333)
    with (t0 :: ticks 1000 (t0 + 33333333) 33333333).
  cbn [feed]. rewrite Hstep.
  rewrite Hl. eexists. split; [reflexivity|].
  split.
  - cbn [length]. f_equal.
    rewrite (feed_length _ _ _ Hl). apply ticks_length.
  - cbn [total_count fold_right gc_count]. fold (total_count l).
    rewrite Htot. reflexivity.
Qed.

Lemma ntsc_cadence_total_witness :
  s_enable_custom_framerate (settings_fps NDI_FRAMERATE_2997) = true
  /\ 0 < 33333333
  /\ exists l,
      feed (converter_fps NDI_FRAMERATE_2997) (ticks 1001 33333333 33333333)
      = Some l
      /\ length l = 1001%nat
      /\ total_count l = 999.
Proof.
  split; [reflexivity|]. split; [lia|].
  apply (ntsc_cadence_total ndi_converter_init
           (settings_fps NDI_FRAMERATE_2997) 33333333);
    [reflexivity | reflexivity | reflexivity | lia | lia].
Defined.

(** C3, the claim as written: the same run totals 999, not 1000. *)
Lemma ntsc_cadence_not_1000 :
  exists l,
    feed (converter_fps NDI_FRAMERATE_2997) (ticks 1001 33333333 33333333)
    = Some l
    /\ total_count l = 999
    /\ total_count l <> 1000.
Proof.
  destruct (feed (converter_fps NDI_FRAMERATE_2997)
              (ticks 1001 33333333 33333333)) as [l|] eqn:E.
  - exists l. split; [reflexivity|].
    assert (H : option_map total_count
                  (feed (converter_fps NDI_FRAMERATE_2997)
                     (ticks 1001 33333333 33333333)) = Some 999)
      by (vm_compute; reflexivity).
    rewrite E in H. cbn in H. injection H as H. rewrite H. split; lia.
  - exfalso.
    assert (H : option_map total_count
                  (feed (converter_fps NDI_FRAMERATE_2997)
                     (ticks 1001 33333333 33333333)) = Some 999)
      by (vm_compute; reflexivity).
    rewrite E in H. discriminate.
Qed.

(** C4 (as amended).  For every run of calls to
    [ndi_converter_should_send_frame] with frame-rate conversion enabled,
    a positive target interval, the accumulator starting in
    [0, interval), and non-decreasing timestamps whose gaps [d] keep the
    arithmetic inside its integer types
    ([d + interval <= min (2^63) (2^31 * interval)]): no call fails, each
    call returns the count [(accumulator + delta) / interval] with [delta]
    the elapsed time (0 when the last timestamp is the 0 sentinel), each
    call leaves the accumulator in [0, interval), and a call on a freshly
    reset state returns 0. *)
Theorem pacing_counts_quotient c tss :
  enable_custom_framerate c = true ->
  0 < target_frame_interval_ns c ->
  0 <= accumulator_ns c < target_frame_interval_ns c ->
  paced_run (target_frame_interval_ns c) (last_frame_timestamp c) tss ->
  exists l,
    feed c tss = Some l
    /\ length l = length tss
    /\ Forall pace_call_ok l.
Proof.
  intros Hen HT Hacc Hrun.
  destruct (feed_paced tss c Hen HT Hacc Hrun) as (l & Hl & Hok).
  exists l. split; [exact Hl|]. split; [|exact Hok].
  exact (feed_length _ _ _ Hl).
Qed.

Lemma pacing_counts_quotient_witness :
  enable_custom_framerate (converter_fps NDI_FRAMERATE_2997) = true
  /\ 0 < target_frame_interval_ns (converter_fps NDI_FRAMERATE_2997)
  /\ exists l,
      feed (converter_fps NDI_FRAMERATE_2997)
        [1000; 50001000; 50001000; 150001000] = Some l
      /\ length l = 4%nat
      /\ Forall pace_call_ok l.
Proof.
  split; [reflexivity|]. split; [reflexivity|].
  apply (pacing_counts_quotient (converter_fps NDI_FRAMERATE_2997)
           [1000; 50001000; 50001000; 150001000]).
  - reflexivity.
  - reflexivity.
  - split; [discriminate | reflexivity].
  - vm_compute. repeat split; try reflexivity; discriminate.
Defined.

(** C4, the claim as written: on a state reached by one frame at
    timestamp 1, a frame at timestamp [2^63 + 1] is non-decreasing, yet
    the elapsed time does not fit [int64_t]: the call returns 0 instead of
    the quotient and leaves a negative accumulator. *)
Lemma wide_gap_breaks_quotient :
  exists g1 g2,
    feed (converter_fps NDI_FRAMERATE_2997) [1; 2 ^ 63 + 1] = Some [g1; g2]
    /\ enable_custom_framerate (gc_before g2) = true
    /\ target_frame_interval_ns (gc_before g2) = 33366666
    /\ last_frame_timestamp (gc_before g2) <= gc_timestamp g2 < 2 ^ 64
    /\ gc_count g2 = 0
    /\ (accumulator_ns (gc_before g2)
        + elapsed (gc_before g2) (gc_timestamp g2))
       / target_frame_interval_ns (gc_before g2) = 276424741892
    /\ accumulator_ns (gc_after g2) = - 2 ^ 63.
Proof.
  eexists. eexists. split; [vm_compute; reflexivity|].
  vm_compute. repeat split; try reflexivity; discriminate.
Qed.

(* ================================================================== *)
(** * Claims about the resolver's pacing reset *)
(* ================================================================== *)

(** C9 (as amended).  For every prior state: a settings update that
    leaves frame-rate conversion enabled, whether or not the frame-rate
    settings differ from the previous ones, resets the accumulator and
    the last timestamp to 0; an update that disables frame-rate conversion
    leaves both as they were and zeroes the target rate and interval, so
    that the pacer no longer reads them. *)
Theorem update_resets_pacing_when_enabled c s :
  if s_enable_custom_framerate s then
    accumulator_ns (ndi_converter_update c s) = 0
    /\ last_frame_timestamp (ndi_converter_update c s) = 0
  else
    accumulator_ns (ndi_converter_update c s) = accumulator_ns c
    /\ last_frame_timestamp (ndi_converter_update c s) = last_frame_timestamp c
    /\ target_frame_interval_ns (ndi_converter_update c s) = 0
    /\ target_fps_num (ndi_converter_update c s) = 0
    /\ target_fps_den (ndi_converter_update c s) = 0.
Proof.
  destruct (s_enable_custom_framerate s) eqn:Hen.
  - destruct (update_framerate_on c s Hen) as (_ & Ha & Hl & _). auto.
  - destruct (update_framerate_off c s Hen) as (_ & Ha & Hl & Hi & Hn & Hd).
    auto.
Qed.

(** C9, the claim as written: a converter pacing at 30 fps has seen
    frames at 1000 and 40001000 ns; the update that disables frame-rate
    conversion changes the frame-rate configuration and keeps the
    accumulator at 6666667 and the last timestamp at 40001000. *)
Lemma disabling_update_keeps_pacing_state :
  let c := after_frames (converter_fps NDI_FRAMERATE_30) [1000; 40001000] in
  let c' := ndi_converter_update c default_settings in
  reachable c
  /\ framerate_config c' <> framerate_config c
  /\ accumulator_ns c' = 6666667
  /\ last_frame_timestamp c' = 40001000.
Proof.
  cbv zeta. split.
  - assert (H1 : ndi_converter_should_send_frame
                   (converter_fps NDI_FRAMERATE_30) 1000
                 = Some (false, 0,
                         set_pacing (converter_fps NDI_FRAMERATE_30)
                           0 33333333 1000))
      by (vm_compute; reflexivity).
    assert (H2 : ndi_converter_should_send_frame
                   (set_pacing (converter_fps NDI_FRAMERATE_30) 0 33333333 1000)
                   40001000
                 = Some (true, 1,
                         set_pacing (converter_fps NDI_FRAMERATE_30)
                           6666667 33333333 40001000))
      by (vm_compute; reflexivity).
    assert (E : after_frames (converter_fps NDI_FRAMERATE_30) [1000; 40001000]
                = set_pacing (converter_fps NDI_FRAMERATE_30)
                    6666667 33333333 40001000).
    { unfold after_frames. cbn [feed]. rewrite H1, H2. reflexivity. }
    rewrite E.
    eapply reach_should_send; [|exact H2].
    eapply reach_should_send; [|exact H1].
    apply reach_update. apply reach_init.
  - vm_compute. repeat split; try reflexivity; discriminate.
Qed.

(* ================================================================== *)
(** * Claims about the resampler life cycle *)
(* ================================================================== *)

(** C6 (the code departs from it).  [ndi_converter_update_scaler] decides
    on the scaler's presence and on the source width, height and format
    only.  With a scaler present and the source geometry unchanged it
    returns [true], keeps the scaler and makes no host call, whatever
    target geometry that scaler was created for: after a settings change
    that alters the target, the stale scaler is reused. *)
Theorem scaler_reused_whatever_its_target c sc ok h sw sh sf :
  enable_custom_resolution c = true ->
  target_width c <> 0 -> target_height c <> 0 ->
  scaler c = Some sc ->
  source_width c = sw -> source_height c = sh -> source_format c = sf ->
  ndi_converter_update_scaler ok h c sw sh sf = (true, c, h).
Proof.
  intros Hen Hw Hh Hsc Hsw Hsh Hsf.
  unfold ndi_converter_update_scaler.
  rewrite Hen, Hsc, Hsw, Hsh, Hsf, !Z.eqb_refl.
  destruct (Z.eqb_spec (target_width c) 0); [contradiction|].
  destruct (Z.eqb_spec (target_height c) 0); [contradiction|].
  reflexivity.
Qed.

Lemma scaler_reused_whatever_its_target_witness :
  exists sc,
    scaler retargeted_1080p = Some sc
    /\ (vsi_width (scaler_dst sc), vsi_height (scaler_dst sc)) = (1280, 720)
    /\ (target_width retargeted_1080p, target_height retargeted_1080p)
       = (1920, 1080)
    /\ scaled_buffer_size retargeted_1080p = 1280 * 720 * 4
    /\ ndi_converter_update_scaler true (snd scaled_720p) retargeted_1080p
         3840 2160 2
       = (true, retargeted_1080p, snd scaled_720p).
Proof.
  eexists. split; [reflexivity|]. split; [reflexivity|].
  split; [reflexivity|]. split; [reflexivity|].
  eapply (scaler_reused_whatever_its_target retargeted_1080p _ true
            (snd scaled_720p) 3840 2160 2);
    solve [reflexivity | discriminate].
Defined.

(** The resolver never asks for more than 7680 x 4320. *)
Lemma update_target c s :
  let c' := ndi_converter_update c s in
  (target_width c', target_height c')
  = if s_enable_custom_resolution s then
      match resolution_mode_of (wrap_u32 (s_resolution_mode s)) with
      | Some NDI_RESOLUTION_CUSTOM => (custom_width c', custom_height c')
      | _ => ndi_converter_get_preset_resolution
               (wrap_u32 (s_resolution_mode s))
      end
    else (0, 0).
Proof.
  unfold ndi_converter_update.
  destruct (if s_enable_custom_resolution s then _ else _) as [tw th] eqn:E.
  destruct (s_enable_custom_framerate s).
  - destruct (match framerate_mode_of _ with
              | Some NDI_FRAMERATE_CUSTOM => _ | _ => _ end) as [tn td].
    cbn. rewrite <- E. reflexivity.
  - cbn. rewrite <- E. reflexivity.
Qed.

Lemma update_custom_size c s :
  let c' := ndi_converter_update c s in
  custom_width c' = Z.min 7680 (Z.max 128 (wrap_u32 (s_custom_width s)))
  /\ custom_height c' = Z.min 4320 (Z.max 72 (wrap_u32 (s_custom_height s))).
Proof.
  unfold ndi_converter_update.
  destruct (if s_enable_custom_resolution s then _ else _) as [tw th] eqn:E.
  rewrite <- !clamp_lo_spec, <- !clamp_hi_spec.
  destruct (s_enable_custom_framerate s).
  - destruct (match framerate_mode_of _ with
              | Some NDI_FRAMERATE_CUSTOM => _ | _ => _ end) as [tn td].
    cbn. auto.
  - cbn. auto.
Qed.

Lemma preset_resolution_cases mode :
  let p := ndi_converter_get_preset_resolution mode in
  (p = (0, 0) /\ (resolution_mode_of mode = None
                  \/ resolution_mode_of mode = Some NDI_RESOLUTION_AUTO
                  \/ resolution_mode_of mode = Some NDI_RESOLUTION_CUSTOM))
  \/ (In p [(1280, 720); (1920, 1080); (2560, 1440); (3840, 2160)]
      /\ exists m, resolution_mode_of mode = Some m
                   /\ m <> NDI_RESOLUTION_AUTO /\ m <> NDI_RESOLUTION_CUSTOM).
Proof.
  unfold ndi_converter_get_preset_resolution.
  destruct (resolution_mode_of mode) as [[]|]; cbn;
    try (left; split; [reflexivity|tauto]);
    right; (split; [tauto|]); eexists; (split; [reflexivity|]);
    split; discriminate.
Qed.

Lemma update_target_bounded c s :
  0 <= target_width (ndi_converter_update c s) <= 7680
  /\ 0 <= target_height (ndi_converter_update c s) <= 4320.
Proof.
  pose proof (update_target c s) as H. cbv zeta in H.
  destruct (update_custom_size c s) as [Hw Hh].
  destruct (s_enable_custom_resolution s).
  - destruct (preset_resolution_cases (wrap_u32 (s_resolution_mode s)))
      as [[Hp Hm]|[Hp (m & Hm & Ha & Hc)]].
    + destruct Hm as [Hm|[Hm|Hm]]; rewrite Hm in H; rewrite ?Hp in H;
        injection H as Ht1 Ht2; rewrite Ht1, Ht2, ?Hw, ?Hh; lia.
    + rewrite Hm in H.
      assert (H' : (target_width (ndi_converter_update c s),
                    target_height (ndi_converter_update c s))
                   = ndi_converter_get_preset_resolution
                       (wrap_u32 (s_resolution_mode s)))
        by (destruct m; try exact H; contradiction).
      clear H. cbn [In] in Hp.
      destruct Hp as [Hp|[Hp|[Hp|[Hp|[]]]]]; rewrite <- Hp in H';
        injection H' as -> ->; lia.
  - injection H as -> ->. lia.
Qed.

Lemma reachable_target_bounded c :
  reachable c ->
  0 <= target_width c <= 7680 /\ 0 <= target_height c <= 4320.
Proof.
  induction 1 as [|c s _ _|c ok h sw sh sf _ IH|c ts b n c' _ IH Hs|c h _ _].
  - cbn. lia.
  - apply update_target_bounded.
  - unfold ndi_converter_update_scaler.
    repeat match goal with
           | |- context [if ?b then _ else _] => destruct b
           | |- context [let '(_, _) := ?p in _] => destruct p
           end; cbn; exact IH.
  - unfold ndi_converter_should_send_frame in Hs.
    destruct (negb (enable_custom_framerate c)
              || (target_frame_interval_ns c =? 0)).
    + injection Hs as _ _ <-. exact IH.
    + destruct (drain 64 _ _) as [k a].
      destruct (a <? target_frame_interval_ns c); [|discriminate].
      injection Hs as _ _ <-. exact IH.
  - cbn. lia.
Qed.

Lemma required_size_exact c :
  0 <= target_width c <= 7680 -> 0 <= target_height c <= 4320 ->
  required_size c = target_width c * target_height c * 4.
Proof.
  intros Hw Hh. unfold required_size.
  assert (0 <= target_width c * target_height c <= 7680 * 4320) by nia.
  rewrite (wrap_u32_id (target_width c * target_height c)) by lia.
  apply wrap_u32_id. lia.
Qed.

(** The host calls a step added, as a prefix of the log. *)
Ltac give_new_calls :=
  first
    [ exists (@nil host_call); split; [reflexivity|]
    | refine (ex_intro _ [_] _); split; [reflexivity|]
    | refine (ex_intro _ [_; _] _); split; [reflexivity|]
    | refine (ex_intro _ [_; _; _] _); split; [reflexivity|]
    | refine (ex_intro _ [_; _; _; _] _); split; [reflexivity|] ].

Ltac no_bmalloc_in_calls :=
  let Hin := fresh "Hin" in
  intros ? ? Hin; cbn [In] in Hin;
  repeat (destruct Hin as [Hin|Hin]; [discriminate|]); contradiction.

(** What one call does to the scaled buffer: either the pointer, the
    capacity and the allocator are left alone, or the capacity was short
    of [required_size] and exactly one [bmalloc] of that size replaced
    the buffer. *)
Lemma update_scaler_buffer ok h c sw sh sf :
  let '(_, c1, h1) := ndi_converter_update_scaler ok h c sw sh sf in
  target_width c1 = target_width c
  /\ target_height c1 = target_height c
  /\ exists new,
      calls h1 = new ++ calls h
      /\ ((scaled_buffer c1 = scaled_buffer c
           /\ scaled_buffer_size c1 = scaled_buffer_size c
           /\ forall p n, ~ In (call_bmalloc p n) new)
          \/ (scaled_buffer_size c < required_size c
              /\ scaled_buffer_size c1 = required_size c
              /\ exists p,
                  scaled_buffer c1 = Some p
                  /\ forall p' n, In (call_bmalloc p' n) new ->
                                  p' = p /\ n = required_size c)).
Proof.
  unfold ndi_converter_update_scaler.
  destruct (negb (enable_custom_resolution c) || (target_width c =? 0)
            || (target_height c =? 0)).
  { repeat split. give_new_calls. left. auto. }
  destruct (negb (negb (scaler_present (scaler c))
                  || negb (source_width c =? sw)
                  || negb (source_height c =? sh)
                  || negb (source_format c =? sf))).
  { repeat split. give_new_calls. left. auto. }
  unfold host_fresh, host_call_log.
  destruct ok; cbn [negb].
  - destruct (Z.ltb_spec (scaled_buffer_size c) (required_size c)) as [Hlt|Hge].
    + destruct (scaler c) as [s0|], (scaled_buffer c) as [p0|];
        cbn [calls next_id set_scaling target_width target_height
             scaled_buffer scaled_buffer_size];
        (split; [reflexivity|]); (split; [reflexivity|]);
        give_new_calls;
        right; (split; [exact Hlt|]); (split; [reflexivity|]);
        eexists; (split; [reflexivity|]);
        intros p' n Hin; cbn [In] in Hin;
        repeat (destruct Hin as [Hin|Hin];
                [try discriminate; injection Hin as <- <-; auto|]);
        contradiction.
    + destruct (scaler c) as [s0|];
        cbn [calls next_id set_scaling target_width target_height
             scaled_buffer scaled_buffer_size];
        (split; [reflexivity|]); (split; [reflexivity|]);
        give_new_calls;
        left; (split; [reflexivity|]); (split; [reflexivity|]);
        no_bmalloc_in_calls.
  - destruct (scaler c) as [s0|];
      cbn [calls next_id set_scaling target_width target_height
           scaled_buffer scaled_buffer_size];
      (split; [reflexivity|]); (split; [reflexivity|]);
      give_new_calls;
      left; (split; [reflexivity|]); (split; [reflexivity|]);
      no_bmalloc_in_calls.
Qed.

(** C8.  On every reachable converter, one call of
    [ndi_converter_update_scaler] calls [bmalloc] for the scaled buffer
    only when the capacity is below [target_width * target_height * 4],
    and then for exactly that size; it changes the pointer or the capacity
    only in that case; it never lowers the capacity; and when the capacity
    already covers the required size, this call and the next one leave
    pointer and capacity as they were. *)
Theorem scaled_buffer_grows_only c ok h sw sh sf :
  reachable c ->
  let need := target_width c * target_height c * 4 in
  let '(_, c1, h1) := ndi_converter_update_scaler ok h c sw sh sf in
  (exists new,
      calls h1 = new ++ calls h
      /\ forall p n, In (call_bmalloc p n) new ->
                     scaled_buffer_size c < need /\ n = need)
  /\ (scaled_buffer c1 <> scaled_buffer c
      \/ scaled_buffer_size c1 <> scaled_buffer_size c ->
      scaled_buffer_size c < need)
  /\ scaled_buffer_size c <= scaled_buffer_size c1
  /\ (need <= scaled_buffer_size c ->
      forall ok2 sw2 sh2 sf2,
        let '(_, c2, _) := ndi_converter_update_scaler ok2 h1 c1 sw2 sh2 sf2 in
        scaled_buffer c1 = scaled_buffer c
        /\ scaled_buffer_size c1 = scaled_buffer_size c
        /\ scaled_buffer c2 = scaled_buffer c
        /\ scaled_buffer_size c2 = scaled_buffer_size c).
Proof.
  intros Hr. cbv zeta.
  destruct (reachable_target_bounded c Hr) as [Hw Hh].
  pose proof (required_size_exact c Hw Hh) as Hreq.
  pose proof (update_scaler_buffer ok h c sw sh sf) as H1.
  destruct (ndi_converter_update_scaler ok h c sw sh sf) as [[r1 c1] h1].
  destruct H1 as (Htw & Hth & new & Hnew & Hcase).
  rewrite Hreq in Hcase.
  split; [|split; [|split]].
  - exists new. split; [exact Hnew|]. intros p n Hin.
    destruct Hcase as [(_ & _ & Hno)|(Hlt & _ & p0 & _ & Hall)].
    + exfalso. exact (Hno p n Hin).
    + split; [exact Hlt|]. exact (proj2 (Hall p n Hin)).
  - intros Hchg.
    destruct Hcase as [(Hb & Hs & _)|(Hlt & _)]; [|exact Hlt].
    destruct Hchg as [Hchg|Hchg]; contradiction.
  - destruct Hcase as [(_ & Hs & _)|(Hlt & Hs & _)]; lia.
  - intros Hcap ok2 sw2 sh2 sf2.
    destruct Hcase as [(Hb & Hs & _)|(Hlt & _)]; [|lia].
    pose proof (update_scaler_buffer ok2 h1 c1 sw2 sh2 sf2) as H2.
    destruct (ndi_converter_update_scaler ok2 h1 c1 sw2 sh2 sf2)
      as [[r2 c2] h2].
    destruct H2 as (_ & _ & new2 & _ & Hcase2).
    assert (Hreq1 : required_size c1 = target_width c * target_height c * 4).
    { unfold required_size in *. rewrite Htw, Hth. exact Hreq. }
    rewrite Hreq1 in Hcase2.
    destruct Hcase2 as [(Hb2 & Hs2 & _)|(Hlt2 & _)]; [|lia].
    repeat split; congruence.
Qed.

Lemma scaled_buffer_grows_only_witness :
  reachable (snd (fst scaled_720p))
  /\ scaled_buffer_size (snd (fst scaled_720p))
     <= scaled_buffer_size
          (snd (fst (ndi_converter_update_scaler true (snd scaled_720p)
                       (snd (fst scaled_720p)) 1920 1080 2))).
Proof.
  assert (Hr : reachable (snd (fst scaled_720p))).
  { unfold scaled_720p. apply reach_update_scaler. apply reach_update.
    apply reach_init. }
  split; [exact Hr|].
  pose proof (scaled_buffer_grows_only (snd (fst scaled_720p)) true
                (snd scaled_720p) 1920 1080 2 Hr) as H.
  cbv zeta in H.
  destruct (ndi_converter_update_scaler true (snd scaled_720p)
              (snd (fst scaled_720p)) 1920 1080 2) as [[r1 c1] h1].
  exact (proj1 (proj2 (proj2 H))).
Defined.

(* ================================================================== *)
(** * Claims about the crop rectangle *)
(* ================================================================== *)

(** The clamps keep the rectangle inside the frame whenever
    [crop_left + crop_width] cannot pass [2^32]. *)
Lemma crop_clamp_in_frame known_w known_h r :
  1 <= known_w <= 2 ^ 31 -> 1 <= known_h <= 2 ^ 31 ->
  - 2 ^ 31 <= r_left r < 2 ^ 31 -> - 2 ^ 31 <= r_top r < 2 ^ 31 ->
  0 <= r_width r -> 0 <= r_height r ->
  r_width r + known_w <= 2 ^ 32 -> r_height r + known_h <= 2 ^ 32 ->
  rect_in_frame known_w known_h (crop_clamp known_w known_h r).
Proof.
  intros Hkw Hkh Hl Ht Hw Hh Hnw Hnh.
  unfold crop_clamp, rect_in_frame.
  cbn [r_left r_top r_width r_height].
  set (w1 := if r_width r =? 0 then known_w else r_width r).
  set (h1 := if r_height r =? 0 then known_h else r_height r).
  set (l1 := if r_left r <? 0 then 0 else r_left r).
  set (t1 := if r_top r <? 0 then 0 else r_top r).
  assert (Hw1 : 1 <= w1 /\ w1 + known_w <= 2 ^ 32).
  { unfold w1. destruct (Z.eqb_spec (r_width r) 0); lia. }
  assert (Hh1 : 1 <= h1 /\ h1 + known_h <= 2 ^ 32).
  { unfold h1. destruct (Z.eqb_spec (r_height r) 0); lia. }
  assert (Hl1 : 0 <= l1 < 2 ^ 31).
  { unfold l1. destruct (Z.ltb_spec (r_left r) 0); lia. }
  assert (Ht1 : 0 <= t1 < 2 ^ 31).
  { unfold t1. destruct (Z.ltb_spec (r_top r) 0); lia. }
  rewrite (wrap_u32_id l1), (wrap_u32_id t1) by lia.
  rewrite (wrap_u32_id (known_w - 1)), (wrap_u32_id (known_h - 1)) by lia.
  rewrite (wrap_i32_id (known_w - 1)), (wrap_i32_id (known_h - 1)) by lia.
  set (l2 := if known_w <=? l1 then known_w - 1 else l1).
  set (t2 := if known_h <=? t1 then known_h - 1 else t1).
  assert (Hl2 : 0 <= l2 <= known_w - 1).
  { unfold l2. destruct (Z.leb_spec known_w l1); lia. }
  assert (Ht2 : 0 <= t2 <= known_h - 1).
  { unfold t2. destruct (Z.leb_spec known_h t1); lia. }
  rewrite (wrap_u32_id (l2 + w1)), (wrap_u32_id (t2 + h1)) by lia.
  rewrite (wrap_u32_id (known_w - l2)), (wrap_u32_id (known_h - t2)) by lia.
  destruct (Z.ltb_spec known_w (l2 + w1)), (Z.ltb_spec known_h (t2 + h1));
    lia.
Qed.


(** C10.  A crop of source-space width 1 (height 300) on a 3840 x 2160
    source rendered at the 1080p preset: the scale factor is 0.5, the
    scaled width truncates to 0, the clamp reads 0 as "full width", and
    the frame goes out 1920 wide. *)
Theorem crop_width_one_becomes_full_width :
  exists c f source_w source_h,
    enable_crop c = true
    /\ enable_custom_resolution c = true
    /\ crop_width c = 1
    /\ converter f = c
    /\ known_width f = 1920
    /\ known_width f < source_w
    /\ Fp.S.div (Fp.S.of_Z (known_width f)) (Fp.S.of_Z source_w)
       = S754_finite false 8388608 (-24)
    /\ r_width (crop_normalize c (known_width f) (known_height f)
                  source_w source_h) = 0
    /\ r_width (crop_rect f source_w source_h) = known_width f
    /\ option_map snd (ndi_filter_raw_video f (frame_at 1000) source_w source_h)
       = Some [{| xres := 1920; yres := 150; frame_rate_N := 60;
                  frame_rate_D := 1; p_data := 4096;
                  line_stride_in_bytes := 7680 |}].
Proof.
  exists (converter_crop_1080p 0 0 1 300).
  exists (filter_1080p (converter_crop_1080p 0 0 1 300)).
  exists 3840, 2160.
  repeat split; vm_compute; reflexivity.
Qed.

(* ================================================================== *)
(** * binary64 arithmetic on the values the resolver meets *)
(* ================================================================== *)


(** ** Number of binary digits *)

Lemma digits2_pos_size p : digits2_pos p = Pos.size p.
Proof. induction p as [p IH|p IH|]; cbn; congruence. Qed.

Lemma Zdigits2_log2 p : Zdigits2 (Zpos p) = Z.log2 (Zpos p) + 1.
Proof.
  cbn [Zdigits2]. rewrite digits2_pos_size.
  destruct p as [p|p|]; cbn [Z.log2 Pos.size]; lia.
Qed.

Lemma Zdigits2_spec m :
  0 < m -> 2 ^ (Zdigits2 m - 1) <= m < 2 ^ Zdigits2 m.
Proof.
  intros Hm. destruct m as [|p|p]; try lia.
  rewrite Zdigits2_log2.
  pose proof (Z.log2_spec (Zpos p) ltac:(lia)) as H.
  replace (Z.log2 (Zpos p) + 1 - 1) with (Z.log2 (Zpos p)) by lia.
  replace (Z.log2 (Zpos p) + 1) with (Z.succ (Z.log2 (Zpos p))) by lia.
  exact H.
Qed.

Lemma Zdigits2_unique m d :
  0 < d -> 2 ^ (d - 1) <= m < 2 ^ d -> Zdigits2 m = d.
Proof.
  intros Hd Hm.
  assert (0 < m) by (pose proof (Z.pow_pos_nonneg 2 (d - 1)); lia).
  destruct m as [|p|p]; try lia.
  rewrite Zdigits2_log2.
  rewrite (Z.log2_unique (Zpos p) (d - 1)); try lia.
  replace (Z.succ (d - 1)) with d by lia. exact Hm.
Qed.

Lemma Zdigits2_pos m : 0 < m -> 0 < Zdigits2 m.
Proof. destruct m; cbn; lia. Qed.

(** Scaling by a power of two moves the digit count. *)
Lemma Zdigits2_mul_pow2 m k :
  0 < m -> 0 <= k -> Zdigits2 (m * 2 ^ k) = Zdigits2 m + k.
Proof.
  intros Hm Hk.
  pose proof (Zdigits2_spec m Hm) as [Hlo Hhi].
  pose proof (Zdigits2_pos m Hm).
  apply Zdigits2_unique; [lia|].
  replace (Zdigits2 m + k - 1) with (Zdigits2 m - 1 + k) by lia.
  rewrite !Z.pow_add_r by lia.
  assert (0 < 2 ^ k) by (apply Z.pow_pos_nonneg; lia).
  nia.
Qed.


(** ** Shifting a mantissa right *)

Lemma shr_1_double c :
  0 <= c ->
  shr_1 {| shr_m := c * 2; shr_r := false; shr_s := false |}
  = {| shr_m := c; shr_r := false; shr_s := false |}.
Proof.
  intros Hc. destruct c as [|p|p]; try lia; [reflexivity|].
  rewrite Z.mul_comm. reflexivity.
Qed.

Lemma iter_shr_1_exact p : forall c,
    0 <= c ->
    iter_pos shr_1 p
      {| shr_m := c * 2 ^ Zpos p; shr_r := false; shr_s := false |}
    = {| shr_m := c; shr_r := false; shr_s := false |}.
Proof.
  induction p as [p IH|p IH|]; intros c Hc; cbn [iter_pos].
  - assert (0 < 2 ^ Zpos p) by (apply Z.pow_pos_nonneg; lia).
    replace (c * 2 ^ Zpos p~1) with (c * 2 ^ Zpos p * 2 ^ Zpos p * 2).
    2:{ replace (Zpos p~1) with (Zpos p + Zpos p + 1) by lia.
        rewrite !Z.pow_add_r by lia. change (2 ^ 1) with 2. ring. }
    rewrite shr_1_double by nia.
    rewrite IH by nia. apply IH. exact Hc.
  - assert (0 < 2 ^ Zpos p) by (apply Z.pow_pos_nonneg; lia).
    replace (c * 2 ^ Zpos p~0) with (c * 2 ^ Zpos p * 2 ^ Zpos p).
    2:{ replace (Zpos p~0) with (Zpos p + Zpos p) by lia.
        rewrite Z.pow_add_r by lia. ring. }
    rewrite IH by nia. apply IH. exact Hc.
  - change (2 ^ 1) with 2. apply shr_1_double. exact Hc.
Qed.

Lemma shr_fexp_shift m e l k :
  Zdigits2 m = 53 + k -> -1074 <= e + k ->
  shr_fexp Fp.D.prec Fp.D.emax m e l = shr (shr_record_of_loc m l) e k.
Proof.
  intros Hd He. unfold shr_fexp, fexp, emin, Fp.D.prec, Fp.D.emax.
  f_equal. rewrite Hd. lia.
Qed.

Lemma loc_of_shr_record_of_loc m l :
  loc_of_shr_record (shr_record_of_loc m l) = l.
Proof. destruct l as [|[]]; reflexivity. Qed.

Lemma shr_m_of_loc m l : shr_m (shr_record_of_loc m l) = m.
Proof. destruct l as [|[]]; reflexivity. Qed.

(** A 53-digit mantissa, or [2^53] after a carry, is put back on 53
    digits. *)
Lemma shr_fexp_renorm m e :
  2 ^ 52 <= m <= 2 ^ 53 -> -1074 <= e ->
  exists m' e',
    shr_fexp Fp.D.prec Fp.D.emax m e loc_Exact
    = ({| shr_m := m'; shr_r := false; shr_s := false |}, e')
    /\ 2 ^ 52 <= m' < 2 ^ 53
    /\ e <= e' <= e + 1
    /\ m' * 2 ^ (e' - e) = m.
Proof.
  intros Hm He.
  destruct (Z.eq_dec m (2 ^ 53)) as [->|Hne].
  - exists (2 ^ 52), (e + 1).
    rewrite (shr_fexp_shift _ _ _ 1) by (try reflexivity; lia).
    split; [reflexivity|]. split; [lia|]. split; [lia|].
    replace (e + 1 - e) with 1 by lia. reflexivity.
  - exists m, e.
    rewrite (shr_fexp_shift _ _ _ 0).
    + split; [reflexivity|]. split; [lia|]. split; [lia|].
      rewrite Z.sub_diag. lia.
    + apply Zdigits2_unique; lia.
    + lia.
Qed.

(** Rounding an exactly representable product. *)
Lemma binary_round_aux_exact s c e k :
  0 <= k -> Zdigits2 c = 53 -> 0 < c ->
  -1074 <= e + k <= 971 ->
  binary_round_aux Fp.D.prec Fp.D.emax s (c * 2 ^ k) e loc_Exact
  = S754_finite s (Z.to_pos c) (e + k).
Proof.
  intros Hk Hd Hc He.
  unfold binary_round_aux.
  rewrite (shr_fexp_shift _ _ _ k)
    by (try (rewrite Zdigits2_mul_pow2, Hd by lia; reflexivity); lia).
  assert (Hs : shr (shr_record_of_loc (c * 2 ^ k) loc_Exact) e k
               = ({| shr_m := c; shr_r := false; shr_s := false |}, e + k)).
  { destruct k as [|p|p]; try lia.
    - cbn [shr shr_record_of_loc]. rewrite Z.mul_1_r, Z.add_0_r. reflexivity.
    - cbn [shr shr_record_of_loc]. rewrite iter_shr_1_exact by lia.
      reflexivity. }
  rewrite Hs. cbn [shr_m loc_of_shr_record round_nearest_even].
  rewrite (shr_fexp_shift _ _ _ 0) by (rewrite ?Hd; lia).
  cbn [shr shr_record_of_loc shr_m].
  destruct c as [|p|p]; try lia.
  unfold Fp.D.prec, Fp.D.emax.
  destruct (Z.leb_spec (e + k) (1024 - 53)); [reflexivity|lia].
Qed.

(** ** Conversions from integers *)

Lemma pos_iter_xO p k : Zpos (Pos.iter xO p k) = Zpos p * 2 ^ Zpos k.
Proof.
  induction k as [|k IH] using Pos.peano_ind.
  - cbn [Pos.iter]. change (2 ^ 1) with 2. lia.
  - rewrite Pos.iter_succ, Pos2Z.inj_succ, Z.pow_succ_r by lia.
    rewrite Pos2Z.inj_xO, IH. ring.
Qed.

(** The binary64 value of a positive integer of at most 53 digits: the
    integer itself, on a 53-digit mantissa. *)
Lemma of_Z_normal z :
  0 < z -> Zdigits2 z <= 53 ->
  Fp.D.of_Z z
  = S754_finite false (Z.to_pos (z * 2 ^ (53 - Zdigits2 z))) (Zdigits2 z - 53).
Proof.
  intros Hz Hd. destruct z as [|p|p]; try lia.
  unfold Fp.D.of_Z, binary_normalize, binary_round.
  change (Zpos (digits2_pos p)) with (Zdigits2 (Zpos p)) in *.
  set (d := Zdigits2 (Zpos p)) in *.
  assert (Hd0 : 0 < d) by (apply Zdigits2_pos; lia).
  assert (Hf : fexp Fp.D.prec Fp.D.emax (d + 0) = d - 53).
  { unfold fexp, emin, Fp.D.prec, Fp.D.emax. lia. }
  rewrite Hf. unfold shl_align.
  destruct (d - 53 - 0) as [|k|k] eqn:Ek; try lia.
  - assert (d = 53) by lia.
    replace (53 - d) with 0 by lia.
    pose proof (binary_round_aux_exact false (Zpos p) 0 0) as H0.
    change (2 ^ 0) with 1 in *. rewrite !Z.mul_1_r in *.
    rewrite H0; try lia. f_equal; lia.
  - rewrite pos_iter_xO.
    replace (53 - d) with (Zpos k) by lia.
    pose proof (binary_round_aux_exact false (Zpos p * 2 ^ Zpos k) (d - 53) 0)
      as H0.
    change (2 ^ 0) with 1 in H0. rewrite !Z.mul_1_r, Z.add_0_r in H0.
    assert (Hdig : Zdigits2 (Zpos p * 2 ^ Zpos k) = 53)
      by (rewrite Zdigits2_mul_pow2 by lia; fold d; lia).
    rewrite H0; try lia. reflexivity.
Qed.

(** ** The product [1000000000.0 * den] *)

Lemma of_Z_billion :
  Fp.D.of_Z 1000000000 = S754_finite false (Z.to_pos (1953125 * 2 ^ 32)) (-23).
Proof. reflexivity. Qed.

Lemma billion_times den :
  1 <= den < 2 ^ 32 ->
  Fp.D.mul (Fp.D.of_Z 1000000000) (Fp.D.of_Z den)
  = S754_finite false
      (Z.to_pos (1953125 * den * 2 ^ (53 - Zdigits2 (1953125 * den))))
      (Zdigits2 (1953125 * den) - 44).
Proof.
  intros Hden.
  pose proof (Zdigits2_spec den ltac:(lia)) as Hd.
  pose proof (Zdigits2_pos den ltac:(lia)) as Hd0.
  pose proof (Zdigits2_spec (1953125 * den) ltac:(lia)) as HD.
  pose proof (Zdigits2_pos (1953125 * den) ltac:(lia)) as HD0.
  set (d := Zdigits2 den) in *. set (D := Zdigits2 (1953125 * den)) in *.
  assert (Hd32 : d <= 32).
  { destruct (Z_le_gt_dec d 32); [assumption|].
    assert (2 ^ 32 <= 2 ^ (d - 1)) by (apply Z.pow_le_mono_r; lia). lia. }
  assert (HDlo : d <= D).
  { destruct (Z_le_gt_dec d D); [assumption|].
    assert (2 ^ D <= 2 ^ (d - 1)) by (apply Z.pow_le_mono_r; lia). nia. }
  assert (HDhi : D <= d + 21).
  { destruct (Z_le_gt_dec D (d + 21)); [assumption|].
    assert (2 ^ (d + 21) <= 2 ^ (D - 1)) by (apply Z.pow_le_mono_r; lia).
    rewrite Z.pow_add_r in * by lia. change (2 ^ 21) with 2097152 in *. nia. }
  rewrite of_Z_billion, (of_Z_normal den) by (fold d; lia). fold d.
  unfold Fp.D.mul, SFmul. cbn [xorb].
  assert (Hpd : 0 < 2 ^ (53 - d)) by (apply Z.pow_pos_nonneg; lia).
  assert (HpD : 0 < 2 ^ (53 - D)) by (apply Z.pow_pos_nonneg; lia).
  rewrite Pos2Z.inj_mul, !Z2Pos.id by lia.
  replace (1953125 * 2 ^ 32 * (den * 2 ^ (53 - d)))
    with (1953125 * den * 2 ^ (53 - D) * 2 ^ (32 - d + D)).
  2:{ rewrite <- !Z.mul_assoc. rewrite <- Z.pow_add_r by lia.
      replace (53 - D + (32 - d + D)) with (32 + (53 - d)) by lia.
      rewrite Z.pow_add_r by lia. ring. }
  rewrite binary_round_aux_exact; try lia.
  - f_equal. lia.
  - rewrite Zdigits2_mul_pow2 by lia. fold D. lia.
Qed.

(** ** Rounding a quotient *)

Lemma round_nearest_even_bounds m l :
  m <= round_nearest_even m l <= m + 1.
Proof.
  destruct l as [|[]]; cbn [round_nearest_even]; try lia.
  destruct (Z.even m); lia.
Qed.

(** One right shift of a positive mantissa: the low bit becomes the
    round bit. *)
Lemma shr_1_positive m r s :
  0 < m ->
  exists m' r',
    shr_1 {| shr_m := m; shr_r := r; shr_s := s |}
    = {| shr_m := m'; shr_r := r'; shr_s := r || s |}
    /\ m = 2 * m' + (if r' then 1 else 0).
Proof.
  intros Hm. destruct m as [|[p|p|]|]; try lia; cbn [shr_1].
  - exists (Zpos p), true. split; [reflexivity|lia].
  - exists (Zpos p), false. split; [reflexivity|lia].
  - exists 0, true. split; [reflexivity|lia].
Qed.

(** Rounding to nearest-even a mantissa of 53 or 54 digits, whatever the
    location of the discarded part: a finite value, at most one unit of
    the input's scale away from it. *)
Lemma binary_round_aux_near s q e l :
  2 ^ 52 <= q < 2 ^ 54 -> -1074 <= e <= 969 ->
  exists M E,
    binary_round_aux Fp.D.prec Fp.D.emax s q e l = S754_finite s M E
    /\ e <= E
    /\ q - q mod 2 <= Zpos M * 2 ^ (E - e) <= q + 1.
Proof.
  intros Hq He.
  pose proof (Z.mod_pos_bound q 2 ltac:(lia)) as Hq2.
  unfold binary_round_aux.
  destruct (Z_lt_le_dec q (2 ^ 53)) as [Hlt|Hge].
  - rewrite (shr_fexp_shift _ _ _ 0) by (try (apply Zdigits2_unique); lia).
    cbn [shr]. rewrite loc_of_shr_record_of_loc, shr_m_of_loc.
    pose proof (round_nearest_even_bounds q l) as HM.
    set (M0 := round_nearest_even q l) in *.
    destruct (shr_fexp_renorm M0 e) as (m' & e' & Heq & Hm' & He' & Hval);
      try lia.
    rewrite Heq. cbn [shr_m].
    destruct m' as [|p|p]; try lia.
    exists p, e'. unfold Fp.D.prec, Fp.D.emax.
    destruct (Z.leb_spec e' (1024 - 53)); [|lia].
    split; [reflexivity|]. split; [lia|]. rewrite Hval. lia.
  - rewrite (shr_fexp_shift _ _ _ 1) by (try (apply Zdigits2_unique); lia).
    cbn [shr iter_pos].
    assert (Hrec : exists r0 s0,
               shr_record_of_loc q l
               = {| shr_m := q; shr_r := r0; shr_s := s0 |}).
    { destruct l as [|[]]; cbn; eauto. }
    destruct Hrec as (r0 & s0 & ->).
    destruct (shr_1_positive q r0 s0) as (m1 & r1 & -> & Hqm); [lia|].
    cbn [shr_m].
    set (M0 := round_nearest_even m1
                 (loc_of_shr_record
                    {| shr_m := m1; shr_r := r1; shr_s := r0 || s0 |})).
    assert (HM : q - q mod 2 <= 2 * M0 <= q + 1 /\ m1 <= M0 <= m1 + 1).
    { pose proof (round_nearest_even_bounds m1
                    (loc_of_shr_record
                       {| shr_m := m1; shr_r := r1; shr_s := r0 || s0 |})).
      fold M0 in H. split; [|exact H].
      destruct r1; cbv iota in Hqm.
      - assert (q mod 2 = 1).
        { rewrite Hqm, Z.add_comm, Z.mul_comm, Z.mod_add by lia. reflexivity. }
        lia.
      - assert (M0 = m1).
        { unfold M0. cbn [loc_of_shr_record].
          destruct (r0 || s0); reflexivity. }
        lia. }
    destruct (shr_fexp_renorm M0 (e + 1)) as (m' & e' & Heq & Hm' & He' & Hval);
      try lia.
    rewrite Heq. cbn [shr_m].
    destruct m' as [|p|p]; try lia.
    exists p, e'. unfold Fp.D.prec, Fp.D.emax.
    destruct (Z.leb_spec e' (1024 - 53)); [|lia].
    split; [reflexivity|]. split; [lia|].
    replace (e' - e) with (e' - (e + 1) + 1) by lia.
    rewrite Z.pow_add_r by lia. change (2 ^ 1) with 2.
    rewrite Z.mul_assoc, Hval. lia.
Qed.

(** The quotient and scale that [SFdiv] hands to the rounding, for two
    53-digit mantissas. *)
Lemma div_core_normal m1 e1 m2 e2 :
  Zdigits2 m1 = 53 -> Zdigits2 m2 = 53 -> -1074 <= e1 - e2 - 53 ->
  SFdiv_core_binary Fp.D.prec Fp.D.emax m1 e1 m2 e2
  = (m1 * 2 ^ 53 / m2, e1 - e2 - 53,
     new_location m2 (m1 * 2 ^ 53 mod m2)).
Proof.
  intros H1 H2 He. unfold SFdiv_core_binary. rewrite H1, H2.
  assert (Hmin : Z.min (fexp Fp.D.prec Fp.D.emax (53 + e1 - (53 + e2)))
                   (e1 - e2) = e1 - e2 - 53).
  { unfold fexp, emin, Fp.D.prec, Fp.D.emax. lia. }
  rewrite Hmin.
  replace (e1 - e2 - (e1 - e2 - 53)) with 53 by lia.
  rewrite Z.shiftl_mul_pow2 by lia.
  unfold Z.div, Z.modulo.
  destruct (Z.div_eucl (m1 * 2 ^ 53) m2) as [q r]. reflexivity.
Qed.

(** Truncating a value given on a finer scale. *)
Lemma trunc_scaled M E a b :
  0 <= a -> 0 <= b -> a - b <= E ->
  (if 0 <=? E then Zpos M * 2 ^ E else Zpos M / 2 ^ (- E))
  = Zpos M * 2 ^ (E - (a - b)) * 2 ^ a / 2 ^ b.
Proof.
  intros Ha Hb HE.
  rewrite <- Z.mul_assoc, <- Z.pow_add_r by lia.
  replace (E - (a - b) + a) with (E + b) by lia.
  assert (0 < 2 ^ b) by (apply Z.pow_pos_nonneg; lia).
  destruct (Z.leb_spec 0 E).
  - rewrite Z.pow_add_r, Z.mul_assoc by lia.
    rewrite Z.div_mul by lia. reflexivity.
  - replace b with (- E + (E + b)) at 2 by lia.
    rewrite (Z.pow_add_r 2 (- E) (E + b)) by lia.
    assert (0 < 2 ^ (E + b)) by (apply Z.pow_pos_nonneg; lia).
    assert (0 < 2 ^ (- E)) by (apply Z.pow_pos_nonneg; lia).
    rewrite Z.div_mul_cancel_r by lia. reflexivity.
Qed.

(** ** The interval computation as integer arithmetic *)

Lemma digits_u32 n : 1 <= n < 2 ^ 32 -> 1 <= Zdigits2 n <= 32.
Proof.
  intros Hn.
  pose proof (Zdigits2_spec n ltac:(lia)) as Hd.
  pose proof (Zdigits2_pos n ltac:(lia)) as Hd0.
  split; [lia|].
  destruct (Z_le_gt_dec (Zdigits2 n) 32); [assumption|].
  assert (2 ^ 32 <= 2 ^ (Zdigits2 n - 1)) by (apply Z.pow_le_mono_r; lia).
  lia.
Qed.

Lemma digits_scaled_den den :
  1 <= den < 2 ^ 32 -> 1 <= Zdigits2 (1953125 * den) <= 53.
Proof.
  intros Hn.
  pose proof (Zdigits2_spec (1953125 * den) ltac:(lia)) as Hd.
  pose proof (Zdigits2_pos (1953125 * den) ltac:(lia)) as Hd0.
  split; [lia|].
  destruct (Z_le_gt_dec (Zdigits2 (1953125 * den)) 53); [assumption|].
  assert (2 ^ 53 <= 2 ^ (Zdigits2 (1953125 * den) - 1))
    by (apply Z.pow_le_mono_r; lia).
  lia.
Qed.

Lemma normal_mantissa z :
  0 < z -> Zdigits2 z <= 53 ->
  Zdigits2 (z * 2 ^ (53 - Zdigits2 z)) = 53
  /\ 2 ^ 52 <= z * 2 ^ (53 - Zdigits2 z) < 2 ^ 53.
Proof.
  intros Hz Hd.
  assert (H : Zdigits2 (z * 2 ^ (53 - Zdigits2 z)) = 53)
    by (rewrite Zdigits2_mul_pow2 by lia; lia).
  split; [exact H|].
  assert (0 < 2 ^ (53 - Zdigits2 z)) by (apply Z.pow_pos_nonneg; lia).
  pose proof (Zdigits2_spec (z * 2 ^ (53 - Zdigits2 z)) ltac:(nia)) as Hs.
  rewrite H in Hs. exact Hs.
Qed.

(** [frame_interval_ns den num] is [V * 2^9 / 2^K], where [V] is the
    rounded 53-digit quotient of [5^9 * den * 2^K] by [num]. *)
Lemma frame_interval_shape den num :
  1 <= den < 2 ^ 32 -> 1 <= num < 2 ^ 32 ->
  let K := 53 - Zdigits2 (1953125 * den) + Zdigits2 num in
  let q := 1953125 * den * 2 ^ K / num in
  exists V,
    frame_interval_ns den num = V * 512 / 2 ^ K
    /\ q - q mod 2 <= V <= q + 1
    /\ 2 ^ 52 <= q < 2 ^ 54.
Proof.
  intros Hden Hnum K q.
  pose proof (digits_u32 num Hnum) as Hdn.
  pose proof (digits_scaled_den den Hden) as HD.
  destruct (normal_mantissa (1953125 * den)) as [Hd1 Hm1]; try lia.
  destruct (normal_mantissa num) as [Hd2 Hm2]; try lia.
  set (D := Zdigits2 (1953125 * den)) in *.
  set (dn := Zdigits2 num) in *.
  set (m1 := 1953125 * den * 2 ^ (53 - D)) in *.
  set (m2 := num * 2 ^ (53 - dn)) in *.
  assert (Hq : m1 * 2 ^ 53 / m2 = q).
  { unfold q, m1, m2, K.
    assert (0 < 2 ^ (53 - dn)) by (apply Z.pow_pos_nonneg; lia).
    rewrite <- (Z.div_mul_cancel_r (1953125 * den * 2 ^ (53 - D + dn)) num
                  (2 ^ (53 - dn))) by lia.
    f_equal. rewrite <- !Z.mul_assoc. rewrite <- !Z.pow_add_r by lia.
    repeat (f_equal; try lia). }
  assert (Hqb : 2 ^ 52 <= q < 2 ^ 54).
  { rewrite <- Hq. split.
    - apply Z.div_le_lower_bound; nia.
    - apply Z.div_lt_upper_bound; nia. }
  unfold frame_interval_ns.
  rewrite billion_times by exact Hden.
  rewrite (of_Z_normal num) by lia.
  fold D dn m1 m2.
  unfold Fp.D.div, SFdiv.
  rewrite !Z2Pos.id by lia.
  rewrite div_core_normal by (try assumption; lia).
  rewrite Hq.
  destruct (binary_round_aux_near (xorb false false) q (D - 44 - (dn - 53) - 53)
              (new_location m2 (m1 * 2 ^ 53 mod m2)))
    as (M & E & HR & HE & HV); try lia.
  rewrite HR. cbn [xorb].
  unfold Fp.to_int64, Fp.trunc.
  rewrite (trunc_scaled M E 9 K) by (unfold K; lia).
  replace (D - 44 - (dn - 53) - 53) with (9 - K) in HV by (unfold K; lia).
  set (V := Zpos M * 2 ^ (E - (9 - K))) in *.
  change (2 ^ 9) with 512.
  exists V.
  assert (HK : 0 < 2 ^ K) by (apply Z.pow_pos_nonneg; unfold K; lia).
  assert (HT0 : 0 <= V * 512 / 2 ^ K) by (apply Z.div_pos; lia).
  assert (HT1 : V * 512 / 2 ^ K < 2 ^ 63).
  { apply Z.div_lt_upper_bound; [lia|].
    assert (q <= 1953125 * den * 2 ^ K).
    { unfold q. apply Z.div_le_upper_bound; [lia|]. nia. }
    nia. }
  destruct (Z.leb_spec (- 2 ^ 63) (V * 512 / 2 ^ K)); [|lia].
  destruct (Z.ltb_spec (V * 512 / 2 ^ K) (2 ^ 63)); [|lia].
  cbn [andb]. split; [reflexivity|]. split; assumption.
Qed.

Lemma digits_le_of_lt z b :
  0 < z -> 0 <= b -> z < 2 ^ b -> Zdigits2 z <= b.
Proof.
  intros Hz Hb Hlt.
  pose proof (Zdigits2_spec z Hz) as Hd.
  destruct (Z_le_gt_dec (Zdigits2 z) b); [assumption|].
  assert (2 ^ b <= 2 ^ (Zdigits2 z - 1)) by (apply Z.pow_le_mono_r; lia).
  lia.
Qed.

(** The rounded quotient does not cross a multiple of an even scale [S]
    that the exact quotient has not reached, and stays below the next one
    when [S] exceeds the divisor. *)
Lemma rounded_quotient_between x S n q V a :
  0 < n -> n < S -> S mod 2 = 0 ->
  q = x * S / n ->
  q - q mod 2 <= V <= q + 1 ->
  a * n <= x < (a + 1) * n ->
  a * S <= V < (a + 1) * S.
Proof.
  intros Hn HS Hev Hq HV Ha.
  assert (Hqn : q * n <= x * S < (q + 1) * n).
  { subst q. pose proof (Z.mul_div_le (x * S) n Hn).
    pose proof (Z.mul_succ_div_gt (x * S) n Hn). lia. }
  assert (Hlo : a * S <= q).
  { subst q. apply Z.div_le_lower_bound; [lia|]. nia. }
  assert (Hhi : q + 1 < (a + 1) * S) by nia.
  split; [|lia].
  destruct (Z.eq_dec q (a * S)) as [E|NE]; [|pose proof (Z.mod_pos_bound q 2); lia].
  assert (q mod 2 = 0).
  { rewrite E. rewrite <- Z.mul_mod_idemp_r, Hev by lia.
    rewrite Z.mul_0_r. reflexivity. }
  lia.
Qed.

Lemma pow2_even k : 1 <= k -> 2 ^ k mod 2 = 0.
Proof.
  intros Hk. replace k with (1 + (k - 1)) by lia.
  rewrite Z.pow_add_r by lia. change (2 ^ 1) with 2.
  rewrite Z.mul_comm. apply Z.mod_mul. lia.
Qed.

(** The interval is the exact quotient, truncated, as long as the
    product [1e9 * den] is below [2^53]. *)
Lemma frame_interval_floor den num :
  1 <= den < 2 ^ 32 -> 1 <= num < 2 ^ 32 ->
  1000000000 * den < 2 ^ 53 ->
  frame_interval_ns den num = 1000000000 * den / num.
Proof.
  intros Hden Hnum Hx.
  destruct (frame_interval_shape den num Hden Hnum) as (V & HT & HV & Hq).
  cbv zeta in *.
  pose proof (digits_u32 num Hnum) as Hdn.
  pose proof (Zdigits2_spec num ltac:(lia)) as Hsn.
  assert (HD : Zdigits2 (1953125 * den) <= 44)
    by (apply digits_le_of_lt; lia).
  pose proof (Zdigits2_pos (1953125 * den) ltac:(lia)) as HD0.
  set (D := Zdigits2 (1953125 * den)) in *.
  set (dn := Zdigits2 num) in *.
  set (K := 53 - D + dn) in *.
  set (S := 2 ^ (K - 9)).
  assert (HK : 2 ^ K = S * 512).
  { unfold S. replace K with (K - 9 + 9) at 1 by lia.
    rewrite Z.pow_add_r by (unfold K; lia). reflexivity. }
  assert (HS : num < S).
  { unfold S. replace (K - 9) with (dn + (44 - D)) by (unfold K; lia).
    rewrite Z.pow_add_r by lia.
    assert (0 < 2 ^ (44 - D)) by (apply Z.pow_pos_nonneg; lia). nia. }
  assert (Hev : S mod 2 = 0) by (apply pow2_even; unfold K; lia).
  rewrite HT, HK.
  rewrite Z.div_mul_cancel_r by lia.
  set (a := 1000000000 * den / num).
  assert (Ha : a * num <= 1000000000 * den < (a + 1) * num).
  { unfold a. pose proof (Z.mul_div_le (1000000000 * den) num ltac:(lia)).
    pose proof (Z.mul_succ_div_gt (1000000000 * den) num ltac:(lia)). lia. }
  pose proof (rounded_quotient_between (1000000000 * den) S num
                (1953125 * den * 2 ^ K / num) V a ltac:(lia) HS Hev) as Hb.
  destruct Hb as [Hlo Hhi]; try assumption.
  { f_equal. rewrite HK. ring. }
  symmetry. apply (Z.div_unique V S a (V - a * S)); lia.
Qed.

(** The interval is positive exactly when the rate does not exceed one
    frame per nanosecond. *)
Lemma frame_interval_positive_iff den num :
  1 <= den < 2 ^ 32 -> 1 <= num < 2 ^ 32 ->
  0 < frame_interval_ns den num <-> num <= 1000000000 * den.
Proof.
  intros Hden Hnum.
  destruct (Z_lt_le_dec (1000000000 * den) (2 ^ 53)) as [Hx|Hx].
  - rewrite frame_interval_floor by assumption. split; intros H.
    + destruct (Z_le_gt_dec num (1000000000 * den)); [assumption|].
      rewrite Z.div_small in H by lia. lia.
    + apply Z.div_str_pos. lia.
  - split; intros _; [lia|].
    destruct (frame_interval_shape den num Hden Hnum) as (V & HT & HV & Hq).
    cbv zeta in *.
    pose proof (digits_u32 num Hnum) as Hdn.
    pose proof (digits_scaled_den den Hden) as HD.
    assert (HD45 : 45 <= Zdigits2 (1953125 * den)).
    { pose proof (Zdigits2_spec (1953125 * den) ltac:(lia)) as Hs.
      destruct (Z_le_gt_dec 45 (Zdigits2 (1953125 * den))); [assumption|].
      assert (2 ^ Zdigits2 (1953125 * den) <= 2 ^ 44)
        by (apply Z.pow_le_mono_r; lia).
      lia. }
    set (D := Zdigits2 (1953125 * den)) in *.
    set (dn := Zdigits2 num) in *.
    set (K := 53 - D + dn) in *.
    rewrite HT.
    assert (HK : 0 < 2 ^ K) by (apply Z.pow_pos_nonneg; unfold K; lia).
    apply Z.div_str_pos. split; [lia|].
    assert (2 ^ K <= 2 ^ 40) by (apply Z.pow_le_mono_r; unfold K; lia).
    pose proof (Z.mod_pos_bound (1953125 * den * 2 ^ K / num) 2 ltac:(lia)).
    lia.
Qed.

(* ================================================================== *)
(** * Claims about the configuration resolver *)
(* ================================================================== *)

(** The fields the resolver writes, in terms of the settings. *)
Lemma update_fields c s :
  let c' := ndi_converter_update c s in
  enable_custom_resolution c' = s_enable_custom_resolution s
  /\ resolution_mode c' = wrap_u32 (s_resolution_mode s)
  /\ crop_left c' = Z.max 0 (wrap_i32 (s_crop_left s))
  /\ crop_top c' = Z.max 0 (wrap_i32 (s_crop_top s))
  /\ crop_width c' = wrap_u32 (s_crop_width s)
  /\ crop_height c' = wrap_u32 (s_crop_height s)
  /\ enable_custom_framerate c' = s_enable_custom_framerate s
  /\ framerate_mode c' = wrap_u32 (s_framerate_mode s)
  /\ custom_fps_num c' = Z.max 1 (wrap_u32 (s_custom_fps_num s))
  /\ custom_fps_den c' = Z.max 1 (wrap_u32 (s_custom_fps_den s))
  /\ (target_fps_num c', target_fps_den c')
     = if s_enable_custom_framerate s then
         match framerate_mode_of (wrap_u32 (s_framerate_mode s)) with
         | Some NDI_FRAMERATE_CUSTOM => (custom_fps_num c', custom_fps_den c')
         | _ => ndi_converter_get_preset_framerate
                  (wrap_u32 (s_framerate_mode s))
         end
       else (0, 0).
Proof.
  unfold ndi_converter_update.
  destruct (if s_enable_custom_resolution s then _ else _) as [tw th].
  rewrite <- !clamp_lo_spec.
  destruct (s_enable_custom_framerate s).
  - destruct (match framerate_mode_of _ with
              | Some NDI_FRAMERATE_CUSTOM => _ | _ => _ end) as [tn td] eqn:E.
    cbn. rewrite <- E.
    repeat split; reflexivity.
  - cbn. repeat split; reflexivity.
Qed.

Lemma preset_framerate_range mode :
  let p := ndi_converter_get_preset_framerate mode in
  0 <= fst p <= 60000 /\ 0 <= snd p <= 1001.
Proof.
  unfold ndi_converter_get_preset_framerate.
  destruct (framerate_mode_of mode) as [[]|]; cbn; lia.
Qed.

Lemma update_target_fps_range c s :
  0 <= target_fps_num (ndi_converter_update c s) < 2 ^ 32
  /\ 0 <= target_fps_den (ndi_converter_update c s) < 2 ^ 32.
Proof.
  destruct (update_fields c s)
    as (_ & _ & _ & _ & _ & _ & _ & _ & Hn & Hd & Ht).
  pose proof (wrap_u32_range (s_custom_fps_num s)).
  pose proof (wrap_u32_range (s_custom_fps_den s)).
  pose proof (preset_framerate_range (wrap_u32 (s_framerate_mode s))) as Hp.
  cbv zeta in Hp.
  destruct (s_enable_custom_framerate s).
  - destruct (framerate_mode_of (wrap_u32 (s_framerate_mode s))) as [m|].
    + assert (Hc : (target_fps_num (ndi_converter_update c s),
                    target_fps_den (ndi_converter_update c s))
                   = (custom_fps_num (ndi_converter_update c s),
                      custom_fps_den (ndi_converter_update c s))
                   \/ (target_fps_num (ndi_converter_update c s),
                       target_fps_den (ndi_converter_update c s))
                      = ndi_converter_get_preset_framerate
                          (wrap_u32 (s_framerate_mode s)))
        by (destruct m; auto).
      destruct Hc as [Hc|Hc].
      * injection Hc as -> ->. lia.
      * rewrite <- Hc in Hp. cbn [fst snd] in Hp. lia.
    + rewrite <- Ht in Hp. cbn [fst snd] in Hp. lia.
  - injection Ht as -> ->. lia.
Qed.

(** C2 (as amended).  When frame-rate conversion is enabled and the
    resolved target has num > 0 and den > 0, [ndi_converter_update] sets
    the interval to the binary64 quotient [(1e9 * den) / num] cast to
    [int64_t], that is truncated, not rounded: it equals
    [floor (1e9 * den / num)] whenever [1e9 * den < 2^53] (every preset,
    every den up to 9007199), and for 30000/1001 it is exactly
    33366666. *)
Theorem update_interval_truncates c s :
  s_enable_custom_framerate s = true ->
  0 < target_fps_num (ndi_converter_update c s) ->
  0 < target_fps_den (ndi_converter_update c s) ->
  let c' := ndi_converter_update c s in
  target_frame_interval_ns c'
  = frame_interval_ns (target_fps_den c') (target_fps_num c')
  /\ (1000000000 * target_fps_den c' < 2 ^ 53 ->
      target_frame_interval_ns c'
      = 1000000000 * target_fps_den c' / target_fps_num c')
  /\ (target_fps_num c' = 30000 -> target_fps_den c' = 1001 ->
      target_frame_interval_ns c' = 33366666).
Proof.
  intros Hen Hn Hd c'.
  destruct (update_framerate_on c s Hen) as (_ & _ & _ & HT).
  cbv zeta in HT. fold c' in HT, Hn, Hd.
  destruct (Z.ltb_spec 0 (target_fps_num c')); [|lia].
  destruct (Z.ltb_spec 0 (target_fps_den c')); [|lia].
  cbn [andb] in HT.
  destruct (update_target_fps_range c s) as [Hrn Hrd]. fold c' in Hrn, Hrd.
  split; [exact HT|]. split.
  - intros Hx. rewrite HT. apply frame_interval_floor; lia.
  - intros En Ed. rewrite HT, En, Ed. reflexivity.
Qed.

Lemma update_interval_truncates_witness :
  s_enable_custom_framerate (settings_fps NDI_FRAMERATE_2997) = true
  /\ target_frame_interval_ns (converter_fps NDI_FRAMERATE_2997)
     = 1000000000 * 1001 / 30000
  /\ target_frame_interval_ns (converter_fps NDI_FRAMERATE_2997) = 33366666.
Proof.
  split; [reflexivity|].
  destruct (update_interval_truncates ndi_converter_init
              (settings_fps NDI_FRAMERATE_2997))
    as (_ & Hfloor & Hntsc); [reflexivity|reflexivity|reflexivity|].
  split.
  - apply Hfloor. reflexivity.
  - apply Hntsc; reflexivity.
Defined.

(** Above [2^53] the binary64 quotient can round up across an integer:
    for 726208583/392559491 the exact quotient is below 540560247 and
    the interval stored is 540560247. *)
Lemma frame_interval_can_round_up :
  frame_interval_ns 392559491 726208583 = 540560247
  /\ 1000000000 * 392559491 / 726208583 = 540560246.
Proof. split; vm_compute; reflexivity. Qed.

(** C2, the claim as written: for 30000/1001 the resolver stores
    33366666, while [round(1e9 * 1001 / 30000)] is 33366667. *)
Lemma ntsc_interval_is_truncated :
  target_fps_num (converter_fps NDI_FRAMERATE_2997) = 30000
  /\ target_fps_den (converter_fps NDI_FRAMERATE_2997) = 1001
  /\ target_frame_interval_ns (converter_fps NDI_FRAMERATE_2997) = 33366666
  /\ spec_interval_ns 1001 30000 = 33366667
  /\ target_frame_interval_ns (converter_fps NDI_FRAMERATE_2997)
     <> spec_interval_ns 1001 30000.
Proof. vm_compute. repeat split; try reflexivity; discriminate. Qed.

Lemma update_target_positive_iff c s :
  let c' := ndi_converter_update c s in
  0 < target_width c' /\ 0 < target_height c'
  <-> enable_custom_resolution c' = true
      /\ exists m, resolution_mode_of (resolution_mode c') = Some m
                   /\ m <> NDI_RESOLUTION_AUTO.
Proof.
  cbv zeta.
  pose proof (update_target c s) as Ht. cbv zeta in Ht.
  destruct (update_custom_size c s) as [Hw Hh].
  destruct (update_fields c s) as (Hen & Hmode & _).
  rewrite Hen, Hmode.
  destruct (s_enable_custom_resolution s).
  - unfold ndi_converter_get_preset_resolution in Ht.
    destruct (resolution_mode_of (wrap_u32 (s_resolution_mode s)))
      as [m|] eqn:Em.
    + destruct m; injection Ht as Ht1 Ht2; rewrite Ht1, Ht2, ?Hw, ?Hh;
        (split;
         [ intros [? ?]; try lia;
           (split; [reflexivity|]); eexists; (split; [reflexivity|]);
           discriminate
         | intros [_ (m' & Hm' & Hne)]; injection Hm' as <-;
           try contradiction; lia ]).
    + injection Ht as -> ->. split; [lia|].
      intros [_ (m' & Hm' & _)]. discriminate.
  - injection Ht as -> ->. split; [lia|]. intros [? _]. discriminate.
Qed.

Lemma update_interval_positive_iff c s :
  let c' := ndi_converter_update c s in
  0 < target_frame_interval_ns c'
  <-> enable_custom_framerate c' = true
      /\ 0 < target_fps_num c' /\ 0 < target_fps_den c'
      /\ target_fps_num c' <= 1000000000 * target_fps_den c'.
Proof.
  cbv zeta.
  destruct (update_target_fps_range c s) as [Hrn Hrd].
  destruct (s_enable_custom_framerate s) eqn:Hen.
  - destruct (update_framerate_on c s Hen) as (He & _ & _ & HT).
    cbv zeta in HT. rewrite HT, He.
    destruct (Z.ltb_spec 0 (target_fps_num (ndi_converter_update c s)));
      destruct (Z.ltb_spec 0 (target_fps_den (ndi_converter_update c s)));
      cbn [andb]; try (split; [lia|intros (_ & ? & ? & _); lia]).
    rewrite frame_interval_positive_iff by lia. tauto.
  - destruct (update_framerate_off c s Hen) as (He & _ & _ & HT & _).
    rewrite HT, He. split; [lia|]. intros [? _]. discriminate.
Qed.

(** C5 (as amended).  [ndi_converter_update] is total: for every
    settings input it clamps the custom width into [128, 7680] and the
    custom height into [72, 4320], raises the custom frame-rate numerator
    and denominator to at least 1, and raises negative crop left and top
    to 0 (all on the values as cast to their 32-bit field types); the
    target width and height are both positive if and only if resolution
    conversion is enabled and the mode is a valid mode other than Auto;
    and the target interval is positive if and only if frame-rate
    conversion is enabled, the resolved numerator and denominator are
    both positive, and the numerator does not exceed [1e9 * denominator]
    (a faster rate truncates to a zero interval). *)
Theorem update_clamps_and_resolves c s :
  let c' := ndi_converter_update c s in
  (custom_width c' = Z.min 7680 (Z.max 128 (wrap_u32 (s_custom_width s)))
   /\ 128 <= custom_width c' <= 7680)
  /\ (custom_height c' = Z.min 4320 (Z.max 72 (wrap_u32 (s_custom_height s)))
      /\ 72 <= custom_height c' <= 4320)
  /\ (custom_fps_num c' = Z.max 1 (wrap_u32 (s_custom_fps_num s))
      /\ 1 <= custom_fps_num c')
  /\ (custom_fps_den c' = Z.max 1 (wrap_u32 (s_custom_fps_den s))
      /\ 1 <= custom_fps_den c')
  /\ (crop_left c' = Z.max 0 (wrap_i32 (s_crop_left s)) /\ 0 <= crop_left c')
  /\ (crop_top c' = Z.max 0 (wrap_i32 (s_crop_top s)) /\ 0 <= crop_top c')
  /\ (0 < target_width c' /\ 0 < target_height c'
      <-> enable_custom_resolution c' = true
          /\ exists m, resolution_mode_of (resolution_mode c') = Some m
                       /\ m <> NDI_RESOLUTION_AUTO)
  /\ (0 < target_frame_interval_ns c'
      <-> enable_custom_framerate c' = true
          /\ 0 < target_fps_num c' /\ 0 < target_fps_den c'
          /\ target_fps_num c' <= 1000000000 * target_fps_den c').
Proof.
  cbv zeta.
  destruct (update_custom_size c s) as [Hw Hh].
  destruct (update_fields c s)
    as (_ & _ & Hl & Ht & _ & _ & _ & _ & Hn & Hd & _).
  repeat match goal with |- _ /\ _ => split end;
    try assumption; try lia.
  - apply (update_target_positive_iff c s).
  - apply (update_interval_positive_iff c s).
Qed.

(** C5, the claim as written: a custom rate of 2000000000/1 is enabled
    with both parts positive, and its interval is 0. *)
Lemma fast_custom_rate_has_zero_interval :
  let c' := ndi_converter_update ndi_converter_init
              (settings_custom_fps 2000000000 1) in
  enable_custom_framerate c' = true
  /\ target_fps_num c' = 2000000000
  /\ target_fps_den c' = 1
  /\ target_frame_interval_ns c' = 0
  /\ ~ (0 < target_frame_interval_ns c'
        <-> enable_custom_framerate c' = true
            /\ 0 < target_fps_num c' /\ 0 < target_fps_den c').
Proof.
  cbv zeta.
  set (c' := ndi_converter_update ndi_converter_init
               (settings_custom_fps 2000000000 1)).
  assert (He : enable_custom_framerate c' = true) by (vm_compute; reflexivity).
  assert (Hn : target_fps_num c' = 2000000000) by (vm_compute; reflexivity).
  assert (Hd : target_fps_den c' = 1) by (vm_compute; reflexivity).
  assert (HT : target_frame_interval_ns c' = 0) by (vm_compute; reflexivity).
  rewrite He, Hn, Hd, HT.
  repeat split. intros [_ H]. specialize (H ltac:(repeat split; lia)). lia.
Qed.
